(** * digitalocean_exporter: the entry point [main.go]

    A shallow embedding of the exporter's [main] package: the [Config]
    struct and its [Token] method, the package-level variables, and the
    body of [main] as a computation in a small state-and-halt monad that
    records, in program order, every call [main] makes into its
    collaborators (go-arg, go-kit/log, the metrics registry, net/http).

    Conventions.
    - Go [string] is [string] (a byte sequence); Go [int] and
      [time.Duration] are 64-bit and carried as [Z] with the wrap-around
      written out ([wrap64]).
    - A panic, [os.Exit] and "blocked in the serve loop" are the three ways
      the computation halts ([Halt]).
    - What [main] reads from outside (link-time strings, the clock at
      initialisation, what go-arg finds in the environment, the descriptor
      sets built by package [collector], what [ListenAndServe] eventually
      returns) is collected in the record [World]. *)

From Stdlib Require Import ZArith Lia Ascii String List.
From stdpp Require Import base option list gmap strings.

Local Open Scope string_scope.
Local Open Scope Z_scope.
Local Open Scope list_scope.

(** ** Go primitives *)

(** [int] and [int64] arithmetic: results are reduced into
    [-2^63 .. 2^63-1]. *)
Definition wrap64 (z : Z) : Z := (z + 2 ^ 63) mod 2 ^ 64 - 2 ^ 63.

Definition int64_range (z : Z) : Prop := - 2 ^ 63 <= z < 2 ^ 63.

(** The one character [main.go] needs that a literal cannot hold. *)
Definition DQUOTE : string := String "034"%char EmptyString.
Definition LF : string := String "010"%char EmptyString.
Definition TAB : string := String "009"%char EmptyString.

(** [len(s) > 0 && s[len(s)-1] == '/'] *)
Fixpoint HasSuffixSlash (s : string) : bool :=
  match s with
  | EmptyString => false
  | String a EmptyString => Ascii.eqb a "/"%char
  | String _ s' => HasSuffixSlash s'
  end.

(** [strings.HasPrefix(s, prefix)] *)
Definition HasPrefix (s pre : string) : bool := String.prefix pre s.

(** ** Package [time] *)

Module time.
(** [time.Time], as an instant in nanoseconds since the epoch. *)
Definition Time := Z.
(** [time.Duration]: an [int64] count of nanoseconds. *)
Definition Duration := Z.
Definition Nanosecond : Duration := 1.
Definition Microsecond : Duration := 1000 * Nanosecond.
Definition Millisecond : Duration := 1000 * Microsecond.
(** The conversion [time.Duration(n)] of an [int]. *)
Definition of_int (n : Z) : Duration := wrap64 n.
(** [d * e] on [Duration]. *)
Definition mul (d e : Duration) : Duration := wrap64 (d * e).
End time.

(** ** Package [oauth2] *)

Module oauth2.
Record Token := {
  AccessToken : string;
  TokenType : string;
  RefreshToken : string;
  Expiry : time.Time
}.
End oauth2.

(** Go's [error] interface value; [None] is [nil]. *)
Definition error := option string.

(** ** [Config] *)

(** [type Config struct], fields in declaration order. *)
Record Config := {
  Debug : bool;
  DigitalOceanToken : string;
  HTTPTimeout : Z;
  WebAddr : string;
  WebPath : string
}.

(** The method [Token] of [Config], returning a pointer to an
    [oauth2.Token] and an [error]: the pointer result is an [option]
    ([None] would be [nil]). Fields the composite literal does
    not mention take their zero values. *)
Definition Config_Token (c : Config) : option oauth2.Token * error :=
  (Some {| oauth2.AccessToken := DigitalOceanToken c;
           oauth2.TokenType := EmptyString;
           oauth2.RefreshToken := EmptyString;
           oauth2.Expiry := 0 |},
   None).

(** ** Package [github.com/go-kit/kit/log] and [log/level] *)

Module level.
(** The level attached to a log event by [level.Debug], [level.Info],
    [level.Warn] and [level.Error]. *)
Inductive Value := DebugValue | InfoValue | WarnValue | ErrorValue.

(** The filter options [main] can choose between. *)
Inductive Option := AllowDebug | AllowInfo.

(** [AllowDebug] lets every level through; [AllowInfo] holds back
    debug events only. *)
Definition allowed (o : Option) (v : Value) : bool :=
  match o, v with
  | AllowDebug, _ => true
  | AllowInfo, DebugValue => false
  | AllowInfo, _ => true
  end.
End level.

(** The logger [main] builds: a logfmt logger on stderr, wrapped by
    [level.NewFilter] and then given its contextual keys by [log.With]. *)
Record Logger := {
  filter : level.Option;
  context : list string
}.

(** ** API client *)

Module godo.
(** [oauth2.NewClient(ctx, src)]: an HTTP client drawing its tokens
    from [src]; [main] passes its [Config], whose [Token] method makes it
    a token source. *)
Record HTTPClient := { Source : Config }.
(** [godo.NewClient(httpClient)] *)
Record Client := { client : HTTPClient }.
End godo.

Definition oauth2_NewClient (src : Config) : godo.HTTPClient :=
  {| godo.Source := src |}.
Definition godo_NewClient (h : godo.HTTPClient) : godo.Client :=
  {| godo.client := h |}.

(** ** Package [collector] *)

Module collector.
(** One constructor of package [collector] per resource type, in the
    alphabetical order in which [main] calls them. *)
Inductive Kind :=
| Account | Domain | Droplet | Exporter | FloatingIP
| Image | Key | LoadBalancer | Snapshot | Volume.

#[global] Instance Kind_eq_dec : EqDecision Kind.
Proof. solve_decision. Defined.

(** What a constructor is handed by [main]: the API-backed constructors
    take [(logger, client, timeout)], [NewExporterCollector] takes
    [(logger, version, revision, buildDate, goVersion, startTime)]. *)
Inductive Args :=
| ApiArgs (logger : Logger) (client : godo.Client) (timeout : time.Duration)
| ExporterArgs (logger : Logger)
    (version revision buildDate goVersion : string)
    (startTime : time.Time).

Definition args_logger (a : Args) : Logger :=
  match a with
  | ApiArgs l _ _ => l
  | ExporterArgs l _ _ _ _ _ => l
  end.

(** The API client handle an argument list holds, if any. *)
Definition args_client (a : Args) : option godo.Client :=
  match a with
  | ApiArgs _ c _ => Some c
  | ExporterArgs _ _ _ _ _ _ => None
  end.

(** The timeout an argument list holds, if any. *)
Definition args_timeout (a : Args) : option time.Duration :=
  match a with
  | ApiArgs _ _ t => Some t
  | ExporterArgs _ _ _ _ _ _ => None
  end.

(** A metric descriptor, as far as registration looks at it: the
    fully-qualified name and the label schema. *)
Record Desc := {
  fqName : string;
  labelNames : list string
}.

#[global] Instance Desc_eq_dec : EqDecision Desc.
Proof. solve_decision. Defined.

(** A constructed collector: which constructor built it, from what, and
    the descriptor set it declares. *)
Record Collector := {
  kind : Kind;
  args : Args;
  Describe : list Desc
}.
End collector.

Import collector.

(** ** The metrics registry *)

Module prometheus.
(** Two descriptors collide when they agree on fully-qualified name and
    label schema. *)
Definition desc_collide (d1 d2 : Desc) : bool := bool_decide (d1 = d2).

(** Two collectors collide when a descriptor of the one collides with a
    descriptor of the other. *)
Definition collide (c1 c2 : Collector) : bool :=
  existsb (fun d1 => existsb (desc_collide d1) (Describe c2)) (Describe c1).

(** Modelled from the spec: the Collector Registry's [Register] (the
    registry is the metrics client library's, not under src/). Section
    4.3: it adds a collector to the active set and fails if the
    collector and an already registered one declare metrics with the same
    fully-qualified name and label schema. *)
Definition Register (reg : list Collector) (c : Collector)
  : list Collector + Collector :=
  match List.find (fun c0 => collide c0 c) reg with
  | Some c0 => inr c0
  | None => inl (reg ++ [c])
  end.
End prometheus.

(** ** Package [path]: [Clean] *)

(** [strings.Split(s, "/")] *)
Fixpoint split_slash (s : string) : list string :=
  match s with
  | EmptyString => [EmptyString]
  | String a s' =>
      if Ascii.eqb a "/"%char then EmptyString :: split_slash s'
      else match split_slash s' with
           | x :: xs => String a x :: xs
           | [] => [String a EmptyString]
           end
  end.

(** The element loop of [path.Clean]: [out] is the output written so far,
    last element first; [locked] counts the leading [..] elements that
    must stay (the index [dotdot] of the Go code). Empty and [.] elements
    are dropped, [..] removes the last element when there is one to
    remove, is dropped at the root, and is kept on an unrooted path. *)
Fixpoint clean_elems (rooted : bool) (elems out : list string) (locked : nat)
  : list string :=
  match elems with
  | [] => rev out
  | e :: rest =>
      if String.eqb e EmptyString || String.eqb e "." then
        clean_elems rooted rest out locked
      else if String.eqb e ".." then
        if (locked <? length out)%nat then
          clean_elems rooted rest (tail out) locked
        else if rooted then clean_elems rooted rest out locked
        else clean_elems rooted rest (".." :: out) (S locked)
      else clean_elems rooted rest (e :: out) locked
  end.

(** [path.Clean(p)] *)
Definition path_Clean (p : string) : string :=
  if String.eqb p EmptyString then "."
  else
    let rooted := HasPrefix p "/" in
    let body := String.concat "/" (clean_elems rooted (split_slash p) [] 0) in
    if rooted then "/" +:+ body
    else if String.eqb body EmptyString then "." else body.

(** ** Package [net/http]: handlers and [ServeMux] *)

(** The mux that [http.Handle] fills and [http.ListenAndServe(addr, nil)]
    serves, with the pattern language of the Go releases this exporter
    was written for: a pattern is a path, optionally behind a host name,
    and names a subtree when it ends in a slash. *)

Module http.
(** A request as the mux looks at it: the host (any port stripped) and
    the path of the request URL. Requests with method CONNECT, which the
    mux does not canonicalise, are not covered. *)
Record Request := {
  Host : string;
  Path : string
}.

(** What a handler has written to its [ResponseWriter]. *)
Record ResponseWriter := {
  status : option Z;
  location : option string;
  written : string
}.

Definition StatusOK : Z := 200.
Definition StatusMovedPermanently : Z := 301.
Definition StatusBadRequest : Z := 400.
Definition StatusNotFound : Z := 404.

Definition NewResponseWriter : ResponseWriter :=
  {| status := None; location := None; written := EmptyString |}.

(** [w.Write(b)]: the first write sends status 200 when no header has
    been written yet. *)
Definition Write (w : ResponseWriter) (b : string) : ResponseWriter :=
  {| status := Some (default StatusOK (status w));
     location := location w;
     written := written w +:+ b |}.

(** The handlers that occur in this program: the metrics handler
    [promhttp.Handler()], a function literal wrapped by [HandleFunc],
    and the mux's own [RedirectHandler] and [NotFoundHandler]. *)
Inductive Handler :=
| PromHandler
| HandlerFunc (f : ResponseWriter -> Request -> ResponseWriter)
| RedirectHandler (url : string) (code : Z)
| NotFoundHandler.

Record muxEntry := {
  h : Handler;
  pattern : string
}.

(** [ServeMux]: the map from pattern to entry, the entries whose pattern
    ends in a slash sorted from longest to shortest, and whether any
    pattern names a host. *)
Record ServeMux := {
  m : gmap string muxEntry;
  es : list muxEntry;
  hosts : bool
}.

Definition DefaultServeMux : ServeMux :=
  {| m := ∅; es := []; hosts := false |}.

(** [appendSorted]: insert before the first entry with a strictly
    shorter pattern. *)
Fixpoint appendSorted (es : list muxEntry) (e : muxEntry) : list muxEntry :=
  match es with
  | [] => [e]
  | x :: xs =>
      if (String.length (pattern x) <? String.length (pattern e))%nat
      then e :: x :: xs
      else x :: appendSorted xs e
  end.

(** [mux.Handle(pattern, handler)]: the result is the new mux, or the
    value the call panics with. *)
Definition Handle (mux : ServeMux) (pat : string) (handler : Handler)
  : ServeMux + string :=
  if String.eqb pat EmptyString then inr "http: invalid pattern"
  else match m mux !! pat with
       | Some _ => inr ("http: multiple registrations for " +:+ pat)
       | None =>
           let e := {| h := handler; pattern := pat |} in
           inl {| m := <[pat := e]> (m mux);
                  es := if HasSuffixSlash pat then appendSorted (es mux) e
                        else es mux;
                  hosts := hosts mux || negb (HasPrefix pat "/") |}
       end.

(** [cleanPath]: the canonical form of a request path. *)
Definition cleanPath (p : string) : string :=
  if String.eqb p EmptyString then "/"
  else
    let p := if HasPrefix p "/" then p else "/" +:+ p in
    let np := path_Clean p in
    if HasSuffixSlash p && negb (String.eqb np "/") then np +:+ "/"
    else np.

(** [mux.match(path)]: an exact match first, then the longest pattern
    ending in a slash that is a prefix of the path. *)
Definition match_ (mux : ServeMux) (path : string) : option muxEntry :=
  match m mux !! path with
  | Some v => Some v
  | None => List.find (fun e => HasPrefix path (pattern e)) (es mux)
  end.

(** [mux.handler(host, path)] *)
Definition handler (mux : ServeMux) (host path : string) : Handler * string :=
  let r := if hosts mux then match_ mux (host +:+ path) else None in
  let r := match r with Some e => Some e | None => match_ mux path end in
  match r with
  | Some e => (h e, pattern e)
  | None => (NotFoundHandler, EmptyString)
  end.

(** [mux.shouldRedirectRLocked(host, path)]: the path names a registered
    subtree without its trailing slash. *)
Definition shouldRedirect (mux : ServeMux) (host path : string) : bool :=
  let p := [path; host +:+ path] in
  if existsb (fun c => bool_decide (is_Some (m mux !! c))) p then false
  else if (String.length path =? 0)%nat then false
  else if existsb (fun c => bool_decide (is_Some (m mux !! (c +:+ "/")))) p
       then negb (HasSuffixSlash path)
       else false.

(** [mux.Handler(r)] for a request other than CONNECT. *)
Definition Handler_ (mux : ServeMux) (r : Request) : Handler * string :=
  let host := Host r in
  let path := cleanPath (Path r) in
  if shouldRedirect mux host path then
    (RedirectHandler (path +:+ "/") StatusMovedPermanently, path +:+ "/")
  else if negb (String.eqb path (Path r)) then
    (RedirectHandler path StatusMovedPermanently, snd (handler mux host path))
  else handler mux host (Path r).

(** [h.ServeHTTP(w, r)]; what the metrics handler writes is the
    exposition of the registry's current observations and is left
    open here ([None]). Of a redirect, the status and the [Location]
    header are kept, the short HTML note in its body is not. *)
Definition serve (hd : Handler) (w : ResponseWriter) (r : Request)
  : option ResponseWriter :=
  match hd with
  | PromHandler => None
  | HandlerFunc f => Some (f w r)
  | RedirectHandler url code =>
      Some {| status := Some code; location := Some url;
              written := written w |}
  | NotFoundHandler =>
      Some {| status := Some StatusNotFound; location := location w;
              written := written w +:+ "404 page not found" +:+ LF |}
  end.

(** [mux.ServeHTTP(w, r)]: the asterisk-form target (whose parsed path
    is [*]) is answered 400, everything else goes to the handler the mux
    selects. *)
Definition ServeHTTP (mux : ServeMux) (w : ResponseWriter) (r : Request)
  : option ResponseWriter :=
  if String.eqb (Path r) "*" then
    Some {| status := Some StatusBadRequest; location := location w;
            written := written w |}
  else serve (fst (Handler_ mux r)) w r.
End http.

(** ** The process: events, halting, and the monad [Go] *)

(** The value a panic carries: the string of [panic("...")], or the
    registration error [MustRegister] panics with. *)
Inductive PanicValue :=
| PanicString (msg : string)
| PanicAlreadyRegistered (c other : Collector).

(** The calls of [main] into its collaborators, as they are recorded in
    program order. *)
Inductive Event :=
| EvDotenvLoad
| EvMustParse (dest : Config)
| EvLog (lvl : level.Value) (keyvals : list (string * string))
| EvMustRegister (c : Collector)
| EvHandle (pat : string) (hd : http.Handler)
| EvListenAndServe (addr : string)
| EvPanic (v : PanicValue)
| EvExit (code : Z).

(** How a run stops short of returning: an unrecovered panic, [os.Exit],
    or the serve loop that never returns. *)
Inductive Halt :=
| Panicked (v : PanicValue)
| Exited (code : Z)
| Serving.

(** The process state [main] acts on: the events so far, the default
    metrics registry and the default serve mux. *)
Record Proc := {
  trace : list Event;
  registry : list Collector;
  mux : http.ServeMux
}.

Definition Go (A : Type) : Type := Proc -> (A + Halt) * Proc.

#[global] Instance Go_ret : MRet Go := fun A a p => (inl a, p).

#[global] Instance Go_bind : MBind Go := fun A B f c p =>
  match c p with
  | (inl a, p') => f a p'
  | (inr hl, p') => (inr hl, p')
  end.

Definition emit (e : Event) : Go unit := fun p =>
  (inl tt, {| trace := trace p ++ [e]; registry := registry p; mux := mux p |}).

Definition halt {A : Type} (hl : Halt) : Go A := fun p => (inr hl, p).

(** Reading and replacing the two process-wide defaults. *)
Definition get_registry : Go (list Collector) := fun p => (inl (registry p), p).
Definition put_registry (reg : list Collector) : Go unit := fun p =>
  (inl tt, {| trace := trace p; registry := reg; mux := mux p |}).
Definition get_mux : Go http.ServeMux := fun p => (inl (mux p), p).
Definition put_mux (mx : http.ServeMux) : Go unit := fun p =>
  (inl tt, {| trace := trace p; registry := registry p; mux := mx |}).

(** [panic(v)] *)
Definition panic {A : Type} (v : PanicValue) : Go A :=
  emit (EvPanic v) ;; halt (Panicked v).

(** [os.Exit(code)] *)
Definition os_Exit {A : Type} (code : Z) : Go A :=
  emit (EvExit code) ;; halt (Exited code).

(** The status the operating system sees: 0 when [main] returns, 2 for an
    unrecovered panic, the argument of [os.Exit] otherwise; none while the
    process is serving. *)
Definition exit_code (r : unit + Halt) : option Z :=
  match r with
  | inl _ => Some 0
  | inr (Panicked _) => Some 2
  | inr (Exited code) => Some code
  | inr Serving => None
  end.

(** ** What the process reads from outside *)

(** What go-arg finds for each field of the destination struct in the
    environment variable of its tag or on the command line: [None] when
    neither is given, and the field keeps the value it has. *)
Record Overrides := {
  set_Debug : option bool;
  set_DigitalOceanToken : option string;
  set_HTTPTimeout : option Z;
  set_WebAddr : option string;
  set_WebPath : option string
}.

(** [arg.MustParse] either fills the struct or ends the process itself
    (help and version requests, malformed values). *)
Inductive ArgOutcome :=
| ArgsParsed (o : Overrides)
| ArgsExit (code : Z).

(** [http.ListenAndServe] blocks while it serves and returns only with
    the error that ended it. *)
Inductive ListenOutcome :=
| ServesForever
| ListenReturns (err : error).

Record World := {
  ld_Version : string;
  ld_Revision : string;
  ld_BuildDate : string;
  runtime_Version : string;
  time_Now : time.Time;
  arguments : ArgOutcome;
  descriptors : Kind -> list Desc;
  listen : string -> ListenOutcome
}.

(** The package-level variables. *)
Record Globals := {
  Version : string;
  Revision : string;
  BuildDate : string;
  GoVersion : string;
  StartTime : time.Time
}.

(** Package initialisation: [Version], [Revision] and [BuildDate] hold
    what the linker put there, [GoVersion] and [StartTime] are set by
    their initialisers [runtime.Version()] and [time.Now()]. *)
Definition init (w : World) : Globals :=
  {| Version := ld_Version w;
     Revision := ld_Revision w;
     BuildDate := ld_BuildDate w;
     GoVersion := runtime_Version w;
     StartTime := time_Now w |}.

Definition apply_overrides (o : Overrides) (c : Config) : Config :=
  {| Debug := default (Debug c) (set_Debug o);
     DigitalOceanToken := default (DigitalOceanToken c) (set_DigitalOceanToken o);
     HTTPTimeout := default (HTTPTimeout c) (set_HTTPTimeout o);
     WebAddr := default (WebAddr c) (set_WebAddr o);
     WebPath := default (WebPath c) (set_WebPath o) |}.

(** ** [main] *)

Section Program.
Variable w : World.

(** [godotenv.Load()]; its result is discarded. What it adds to the
    environment is part of what go-arg finds ([arguments]). *)
Definition godotenv_Load : Go unit := emit EvDotenvLoad.

(** [arg.MustParse(&c)] *)
Definition arg_MustParse (dest : Config) : Go Config :=
  emit (EvMustParse dest) ;;
  match arguments w with
  | ArgsParsed o => mret (apply_overrides o dest)
  | ArgsExit code => os_Exit code
  end.

(** [level.Info(logger).Log(keyvals...)] and its siblings: the event
    reaches the output when the logger's filter allows its level. *)
Definition Log (lvl : level.Value) (logger : Logger)
    (keyvals : list (string * string)) : Go unit :=
  if level.allowed (filter logger) lvl then emit (EvLog lvl keyvals)
  else mret tt.

Definition level_Info := Log level.InfoValue.
Definition level_Error := Log level.ErrorValue.

(** Modelled from the spec: the constructors of package [collector]
    (part of this repository, not under src/). Section 4.1: a
    constructor takes what it is handed, builds and stores its fixed
    Metric Descriptor Set, and makes no network call. *)
Definition New (k : Kind) (a : Args) : Collector :=
  {| kind := k; args := a; Describe := descriptors w k |}.

Definition NewAccountCollector l c t := New Account (ApiArgs l c t).
Definition NewDomainCollector l c t := New Domain (ApiArgs l c t).
Definition NewDropletCollector l c t := New Droplet (ApiArgs l c t).
Definition NewExporterCollector l version revision buildDate goVersion startTime :=
  New Exporter (ExporterArgs l version revision buildDate goVersion startTime).
Definition NewFloatingIPCollector l c t := New FloatingIP (ApiArgs l c t).
Definition NewImageCollector l c t := New Image (ApiArgs l c t).
Definition NewKeyCollector l c t := New Key (ApiArgs l c t).
Definition NewLoadBalancerCollector l c t := New LoadBalancer (ApiArgs l c t).
Definition NewSnapshotCollector l c t := New Snapshot (ApiArgs l c t).
Definition NewVolumeCollector l c t := New Volume (ApiArgs l c t).

(** [prometheus.MustRegister(c)]: register with the default registry,
    panic on the error. *)
Definition MustRegister (c : Collector) : Go unit :=
  emit (EvMustRegister c) ;;
  reg ← get_registry;
  match prometheus.Register reg c with
  | inl reg' => put_registry reg'
  | inr other => panic (PanicAlreadyRegistered c other)
  end.

(** [http.Handle(pattern, handler)] on the default mux. *)
Definition http_Handle (pat : string) (hd : http.Handler) : Go unit :=
  emit (EvHandle pat hd) ;;
  mx ← get_mux;
  match http.Handle mx pat hd with
  | inl mx' => put_mux mx'
  | inr msg => panic (PanicString msg)
  end.

(** [http.HandleFunc(pattern, f)] *)
Definition http_HandleFunc (pat : string)
    (f : http.ResponseWriter -> http.Request -> http.ResponseWriter)
  : Go unit :=
  http_Handle pat (http.HandlerFunc f).

(** [http.ListenAndServe(addr, nil)]: serve the default mux. *)
Definition http_ListenAndServe (addr : string) : Go error :=
  emit (EvListenAndServe addr) ;;
  match listen w addr with
  | ServesForever => halt Serving
  | ListenReturns err => mret err
  end.

(** The function literal [main] registers on the pattern [/]. *)
Definition landing (c : Config) (rw : http.ResponseWriter) (r : http.Request)
  : http.ResponseWriter :=
  http.Write rw
    ("<html>" +:+ LF +:+
     TAB +:+ TAB +:+ TAB +:+
     "<head><title>DigitalOcean Exporter</title></head>" +:+ LF +:+
     TAB +:+ TAB +:+ TAB +:+ "<body>" +:+ LF +:+
     TAB +:+ TAB +:+ TAB +:+ "<h1>DigitalOcean Exporter</h1>" +:+ LF +:+
     TAB +:+ TAB +:+ TAB +:+ "<p><a href=" +:+ DQUOTE
     +:+ WebPath c +:+
     DQUOTE +:+ ">Metrics</a></p>" +:+ LF +:+
     TAB +:+ TAB +:+ TAB +:+ "</body>" +:+ LF +:+
     TAB +:+ TAB +:+ TAB +:+ "</html>").

Definition main (g : Globals) : Go unit :=
  godotenv_Load ;;
  c ← arg_MustParse
        {| Debug := false;
           DigitalOceanToken := EmptyString;
           HTTPTimeout := 5000;
           WebAddr := ":9212";
           WebPath := "/metrics" |};
  (if String.eqb (DigitalOceanToken c) EmptyString
   then panic (PanicString "DigitalOcean Token is required")
   else mret tt) ;;
  let filterOption := if Debug c then level.AllowDebug else level.AllowInfo in
  let logger := {| filter := filterOption; context := ["ts"; "caller"] |} in
  level_Info logger
    [("msg", "starting digitalocean_exporter");
     ("version", Version g);
     ("revision", Revision g);
     ("buildDate", BuildDate g);
     ("goVersion", GoVersion g)] ;;
  let oauthClient := oauth2_NewClient c in
  let client := godo_NewClient oauthClient in
  let timeout := time.mul (time.of_int (HTTPTimeout c)) time.Millisecond in
  MustRegister (NewAccountCollector logger client timeout) ;;
  MustRegister (NewDomainCollector logger client timeout) ;;
  MustRegister (NewDropletCollector logger client timeout) ;;
  MustRegister (NewExporterCollector logger (Version g) (Revision g)
                  (BuildDate g) (GoVersion g) (StartTime g)) ;;
  MustRegister (NewFloatingIPCollector logger client timeout) ;;
  MustRegister (NewImageCollector logger client timeout) ;;
  MustRegister (NewKeyCollector logger client timeout) ;;
  MustRegister (NewLoadBalancerCollector logger client timeout) ;;
  MustRegister (NewSnapshotCollector logger client timeout) ;;
  MustRegister (NewVolumeCollector logger client timeout) ;;
  http_Handle (WebPath c) http.PromHandler ;;
  http_HandleFunc "/" (landing c) ;;
  level_Info logger [("msg", "listening"); ("addr", WebAddr c)] ;;
  err ← http_ListenAndServe (WebAddr c);
  match err with
  | Some e =>
      level_Error logger [("msg", "http listenandserve error"); ("err", e)] ;;
      os_Exit 1
  | None => mret tt
  end.

(** The process from start to halt: package initialisation, then [main]
    on an empty registry and an empty mux. *)
Definition run : (unit + Halt) * Proc :=
  main (init w)
    {| trace := []; registry := []; mux := http.DefaultServeMux |}.
End Program.

(** ** Names for what [main] computes on the way *)

(** The composite literal [main] hands to go-arg. *)
Definition defaults : Config :=
  {| Debug := false;
     DigitalOceanToken := EmptyString;
     HTTPTimeout := 5000;
     WebAddr := ":9212";
     WebPath := "/metrics" |}.

(** The configuration after [arg.MustParse], when it returns. *)
Definition configured (w : World) : option Config :=
  match arguments w with
  | ArgsParsed o => Some (apply_overrides o defaults)
  | ArgsExit _ => None
  end.

Definition logger_of (c : Config) : Logger :=
  {| filter := if Debug c then level.AllowDebug else level.AllowInfo;
     context := ["ts"; "caller"] |}.

Definition client_of (c : Config) : godo.Client :=
  godo_NewClient (oauth2_NewClient c).

Definition timeout_of (c : Config) : time.Duration :=
  time.mul (time.of_int (HTTPTimeout c)) time.Millisecond.

(** The ten collectors in the order of the ten [MustRegister] lines. *)
Definition collectors (w : World) (c : Config) : list Collector :=
  let l := logger_of c in
  let cl := client_of c in
  let t := timeout_of c in
  let g := init w in
  [ NewAccountCollector w l cl t;
    NewDomainCollector w l cl t;
    NewDropletCollector w l cl t;
    NewExporterCollector w l (Version g) (Revision g) (BuildDate g)
      (GoVersion g) (StartTime g);
    NewFloatingIPCollector w l cl t;
    NewImageCollector w l cl t;
    NewKeyCollector w l cl t;
    NewLoadBalancerCollector w l cl t;
    NewSnapshotCollector w l cl t;
    NewVolumeCollector w l cl t ].

(** The resource types, in the same order. *)
Definition all_kinds : list Kind :=
  [Account; Domain; Droplet; Exporter; FloatingIP;
   Image; Key; LoadBalancer; Snapshot; Volume].

(** A run of [MustRegister] calls followed by [k]. *)
Fixpoint MustRegisterAll (cs : list Collector) (k : Go unit) : Go unit :=
  match cs with
  | [] => k
  | c :: cs' => MustRegister c ;; MustRegisterAll cs' k
  end.

(** The first registration of [cs] that the registry [reg] refuses: its
    position, the refused collector and the registered one it collides
    with. *)
Fixpoint first_collision (reg cs : list Collector)
  : option (nat * Collector * Collector) :=
  match cs with
  | [] => None
  | c :: cs' =>
      match List.find (fun c0 => prometheus.collide c0 c) reg with
      | Some other => Some (O, c, other)
      | None =>
          match first_collision (reg ++ [c]) cs' with
          | Some (n, a, b) => Some (S n, a, b)
          | None => None
          end
      end
  end.

(** What [main] does after the last [MustRegister]. *)
Definition serve_phase (w : World) (c : Config) : Go unit :=
  http_Handle (WebPath c) http.PromHandler ;;
  http_HandleFunc "/" (landing c) ;;
  level_Info (logger_of c) [("msg", "listening"); ("addr", WebAddr c)] ;;
  err ← http_ListenAndServe w (WebAddr c);
  match err with
  | Some e =>
      level_Error (logger_of c)
        [("msg", "http listenandserve error"); ("err", e)] ;;
      os_Exit 1
  | None => mret tt
  end.

(** The mux once both patterns are registered. *)
Definition mux_of (c : Config) : http.ServeMux :=
  let e1 := {| http.h := http.PromHandler; http.pattern := WebPath c |} in
  let e2 := {| http.h := http.HandlerFunc (landing c); http.pattern := "/" |} in
  {| http.m := <["/" := e2]> (<[WebPath c := e1]> ∅);
     http.es := if HasSuffixSlash (WebPath c) then [e1; e2] else [e2];
     http.hosts := negb (HasPrefix (WebPath c) "/") |}.

(** Event classifiers. *)
Definition is_register (e : Event) : bool :=
  match e with EvMustRegister _ => true | _ => false end.
Definition is_handle (e : Event) : bool :=
  match e with EvHandle _ _ => true | _ => false end.
Definition is_listen (e : Event) : bool :=
  match e with EvListenAndServe _ => true | _ => false end.
Definition is_failure (e : Event) : bool :=
  match e with
  | EvPanic _ => true
  | EvLog level.ErrorValue _ => true
  | EvExit code => negb (code =? 0)
  | _ => false
  end.

(** The collectors handed to [MustRegister], in order. *)
Definition registrations (tr : list Event) : list Collector :=
  omap (fun e => match e with EvMustRegister c => Some c | _ => None end) tr.



(** ** The run in closed form *)

(** The state after the collectors [cs] have been registered on [p]. *)
Definition registered (p : Proc) (cs : list Collector) : Proc :=
  {| trace := trace p ++ map EvMustRegister cs;
     registry := registry p ++ cs;
     mux := mux p |}.

(** The state in which [a], coming after the collectors [pre], has been
    refused because of [b]. *)
Definition refused (p : Proc) (pre : list Collector) (a b : Collector) : Proc :=
  {| trace := trace p ++ map EvMustRegister pre
                ++ [EvMustRegister a; EvPanic (PanicAlreadyRegistered a b)];
     registry := registry p ++ pre;
     mux := mux p |}.

Definition starting_event (w : World) : Event :=
  EvLog level.InfoValue
    [("msg", "starting digitalocean_exporter");
     ("version", ld_Version w);
     ("revision", ld_Revision w);
     ("buildDate", ld_BuildDate w);
     ("goVersion", runtime_Version w)].

Definition listening_event (c : Config) : Event :=
  EvLog level.InfoValue [("msg", "listening"); ("addr", WebAddr c)].

Definition listen_error_event (e : string) : Event :=
  EvLog level.ErrorValue [("msg", "http listenandserve error"); ("err", e)].

Definition token_panic : PanicValue :=
  PanicString "DigitalOcean Token is required".

(** The outcome of [serve_phase] on the empty mux, by cases on the
    scrape path and on what the listener does. *)
Definition serve_spec (w : World) (c : Config) (p : Proc)
  : (unit + Halt) * Proc :=
  let ev1 := EvHandle (WebPath c) http.PromHandler in
  let ev2 := EvHandle "/" (http.HandlerFunc (landing c)) in
  let ev3 := listening_event c in
  let ev4 := EvListenAndServe (WebAddr c) in
  let e1 := {| http.h := http.PromHandler; http.pattern := WebPath c |} in
  if String.eqb (WebPath c) EmptyString then
    let v := PanicString "http: invalid pattern" in
    (inr (Panicked v),
     {| trace := trace p ++ [ev1; EvPanic v];
        registry := registry p;
        mux := http.DefaultServeMux |})
  else if String.eqb (WebPath c) "/" then
    let v := PanicString "http: multiple registrations for /" in
    (inr (Panicked v),
     {| trace := trace p ++ [ev1; ev2; EvPanic v];
        registry := registry p;
        mux := {| http.m := <[WebPath c := e1]> ∅;
                  http.es := [e1];
                  http.hosts := false |} |})
  else
    match listen w (WebAddr c) with
    | ServesForever =>
        (inr Serving,
         {| trace := trace p ++ [ev1; ev2; ev3; ev4];
            registry := registry p;
            mux := mux_of c |})
    | ListenReturns None =>
        (inl tt,
         {| trace := trace p ++ [ev1; ev2; ev3; ev4];
            registry := registry p;
            mux := mux_of c |})
    | ListenReturns (Some e) =>
        (inr (Exited 1),
         {| trace := trace p ++ [ev1; ev2; ev3; ev4;
                                 listen_error_event e; EvExit 1];
            registry := registry p;
            mux := mux_of c |})
    end.

(** The outcome of the whole run. *)
Definition run_spec (w : World) : (unit + Halt) * Proc :=
  let t0 := [EvDotenvLoad; EvMustParse defaults] in
  match arguments w with
  | ArgsExit code =>
      (inr (Exited code),
       {| trace := t0 ++ [EvExit code];
          registry := [];
          mux := http.DefaultServeMux |})
  | ArgsParsed o =>
      let c := apply_overrides o defaults in
      if String.eqb (DigitalOceanToken c) EmptyString then
        (inr (Panicked token_panic),
         {| trace := t0 ++ [EvPanic token_panic];
            registry := [];
            mux := http.DefaultServeMux |})
      else
        let p1 := {| trace := t0 ++ [starting_event w];
                     registry := [];
                     mux := http.DefaultServeMux |} in
        match first_collision [] (collectors w c) with
        | Some (n, a, b) =>
            (inr (Panicked (PanicAlreadyRegistered a b)),
             refused p1 (take n (collectors w c)) a b)
        | None => serve_spec w c (registered p1 (collectors w c))
        end
  end.

(** ** Sample worlds *)

(** One descriptor per collector, named after its resource type. *)
Definition sample_descriptors (k : Kind) : list Desc :=
  [ {| fqName :=
         match k with
         | Account => "digitalocean_account_status"
         | Domain => "digitalocean_domain_ttl_seconds"
         | Droplet => "digitalocean_droplet_up"
         | Exporter => "digitalocean_build_info"
         | FloatingIP => "digitalocean_floating_ipv4_active"
         | Image => "digitalocean_image_min_disk_size_bytes"
         | Key => "digitalocean_key"
         | LoadBalancer => "digitalocean_loadbalancer_status"
         | Snapshot => "digitalocean_snapshot_size_bytes"
         | Volume => "digitalocean_volume_size_bytes"
         end;
       labelNames := ["id"; "name"; "region"] |} ].

Definition no_overrides : Overrides :=
  {| set_Debug := None;
     set_DigitalOceanToken := None;
     set_HTTPTimeout := None;
     set_WebAddr := None;
     set_WebPath := None |}.

Definition with_token (tok : string) : Overrides :=
  {| set_Debug := None;
     set_DigitalOceanToken := Some tok;
     set_HTTPTimeout := None;
     set_WebAddr := None;
     set_WebPath := None |}.

(** A world in which go-arg finds [o], every collector declares its own
    metric, and the listener does [lo]. *)
Definition sample_world (o : Overrides) (lo : ListenOutcome) : World :=
  {| ld_Version := "0.6.1";
     ld_Revision := "8fc1a3e";
     ld_BuildDate := "2019-03-04";
     runtime_Version := "go1.12";
     time_Now := 1551700000000000000;
     arguments := ArgsParsed o;
     descriptors := sample_descriptors;
     listen := fun _ => lo |}.

(** Only the token is set; the exporter serves. *)
Definition world_serving : World :=
  sample_world (with_token "dop_v1_0123") ServesForever.

(** Nothing is set: the token is missing. *)
Definition world_no_token : World :=
  sample_world no_overrides ServesForever.

(** The listener cannot bind. *)
Definition world_bind_failure : World :=
  sample_world (with_token "dop_v1_0123")
    (ListenReturns (Some "listen tcp :9212: bind: address already in use")).

(** The droplet and the volume collector declare the same metric. *)
Definition world_collision : World :=
  {| ld_Version := "0.6.1";
     ld_Revision := "8fc1a3e";
     ld_BuildDate := "2019-03-04";
     runtime_Version := "go1.12";
     time_Now := 1551700000000000000;
     arguments := ArgsParsed (with_token "dop_v1_0123");
     descriptors := fun k =>
       match k with
       | Volume => sample_descriptors Droplet
       | _ => sample_descriptors k
       end;
     listen := fun _ => ServesForever |}.

(** HTTP_TIMEOUT=9223372036855 *)
Definition world_long_timeout : World :=
  sample_world
    {| set_Debug := None;
       set_DigitalOceanToken := Some "dop_v1_0123";
       set_HTTPTimeout := Some 9223372036855;
       set_WebAddr := None;
       set_WebPath := None |}
    ServesForever.

(** WEB_PATH=/ *)
Definition world_root_scrape_path : World :=
  sample_world
    {| set_Debug := None;
       set_DigitalOceanToken := Some "dop_v1_0123";
       set_HTTPTimeout := None;
       set_WebAddr := None;
       set_WebPath := Some "/" |}
    ServesForever.

(** ** Routing on the mux of a serving exporter *)

Definition scrape_entry (c : Config) : http.muxEntry :=
  {| http.h := http.PromHandler; http.pattern := WebPath c |}.

Definition landing_entry (c : Config) : http.muxEntry :=
  {| http.h := http.HandlerFunc (landing c); http.pattern := "/" |}.

(** ** Further names: log lines and reconfigured worlds *)

(** The log lines of a trace, in order. *)
Definition log_lines (tr : list Event)
  : list (level.Value * list (string * string)) :=
  omap (fun e => match e with EvLog l kvs => Some (l, kvs) | _ => None end) tr.

(** The keys [main] logs under. *)
Definition log_keys : list string :=
  ["msg"; "version"; "revision"; "buildDate"; "goVersion"; "addr"; "err"].

(** The same findings of go-arg, except that the token is [tok]. *)
Definition override_token (tok : string) (o : Overrides) : Overrides :=
  {| set_Debug := set_Debug o;
     set_DigitalOceanToken := Some tok;
     set_HTTPTimeout := set_HTTPTimeout o;
     set_WebAddr := set_WebAddr o;
     set_WebPath := set_WebPath o |}.

(** The same world, except for what go-arg finds. *)
Definition with_arguments (a : ArgOutcome) (w : World) : World :=
  {| ld_Version := ld_Version w;
     ld_Revision := ld_Revision w;
     ld_BuildDate := ld_BuildDate w;
     runtime_Version := runtime_Version w;
     time_Now := time_Now w;
     arguments := a;
     descriptors := descriptors w;
     listen := listen w |}.



(** WEB_PATH set to the empty string *)
Definition world_empty_scrape_path : World :=
  sample_world
    {| set_Debug := None;
       set_DigitalOceanToken := Some "dop_v1_0123";
       set_HTTPTimeout := None;
       set_WebAddr := None;
       set_WebPath := Some EmptyString |}
    ServesForever.

(** go-arg prints the help text and exits. *)
Definition world_help : World :=
  with_arguments (ArgsExit 0) world_no_token.

(** Two collectors declare the same descriptors. *)
Definition same_descs (a b : Collector) : Prop := Describe a = Describe b.

(** * Proofs *)

(** ** The monad, step by step *)

Lemma MustRegisterAll_run cs : forall k p,
  MustRegisterAll cs k p =
    match first_collision (registry p) cs with
    | None => k (registered p cs)
    | Some (n, a, b) =>
        (inr (Panicked (PanicAlreadyRegistered a b)), refused p (take n cs) a b)
    end.
Proof.
  induction cs as [|c cs IH]; intros k p.
  - destruct p; unfold registered; simpl. rewrite !app_nil_r. reflexivity.
  - cbn [MustRegisterAll first_collision].
    unfold mbind, Go_bind, MustRegister at 1.
    unfold mbind, Go_bind, emit, get_registry, put_registry, prometheus.Register.
    cbn [registry trace mux].
    destruct (List.find _ (registry p)) as [other|] eqn:Hf.
    + unfold panic, refused, mbind, Go_bind, emit, halt. simpl.
      rewrite app_nil_r, <- app_assoc. reflexivity.
    + rewrite IH. cbn [registry].
      destruct (first_collision (registry p ++ [c]) cs) as [[[n a] b]|].
      * unfold refused. cbn. rewrite <- !app_assoc. reflexivity.
      * unfold registered. cbn. rewrite <- !app_assoc. reflexivity.
Qed.

Lemma HasSuffixSlash_nonempty s :
  HasSuffixSlash s = true -> s <> EmptyString.
Proof. destruct s; [discriminate | congruence]. Qed.

Lemma Handle_scrape pat hd :
  pat <> EmptyString ->
  http.Handle http.DefaultServeMux pat hd =
    inl {| http.m := <[pat := {| http.h := hd; http.pattern := pat |}]> ∅;
           http.es := if HasSuffixSlash pat
                      then [{| http.h := hd; http.pattern := pat |}] else [];
           http.hosts := negb (HasPrefix pat "/") |}.
Proof.
  intros Hne. unfold http.Handle.
  destruct (String.eqb_spec pat EmptyString) as [|_]; [contradiction|].
  cbn [http.m http.es http.hosts http.DefaultServeMux].
  rewrite lookup_empty. cbn.
  destruct (HasSuffixSlash pat); reflexivity.
Qed.

Lemma serve_phase_run w c p :
  mux p = http.DefaultServeMux ->
  serve_phase w c p = serve_spec w c p.
Proof.
  intros Hmux. unfold serve_phase, serve_spec.
  unfold http_HandleFunc, http_Handle, http_ListenAndServe, level_Info,
    level_Error, Log, os_Exit, panic, halt, emit, get_mux, put_mux.
  unfold mbind, Go_bind, mret, Go_ret. cbn [mux trace registry].
  rewrite Hmux.
  destruct (String.eqb_spec (WebPath c) EmptyString) as [He|Hne].
  - rewrite He. cbn. rewrite <- app_assoc. reflexivity.
  - rewrite (Handle_scrape _ _ Hne). cbn [mux trace registry].
    destruct (String.eqb_spec (WebPath c) "/") as [Hs|Hns].
    + rewrite Hs. unfold http.Handle.
      cbn [http.m http.es http.hosts String.eqb Ascii.eqb].
      rewrite lookup_insert_eq. cbn. rewrite <- !app_assoc. reflexivity.
    + unfold http.Handle. cbn [http.m http.es http.hosts String.eqb Ascii.eqb].
      rewrite lookup_insert_ne by congruence. rewrite lookup_empty.
      assert (Hallow : forall v, v <> level.DebugValue ->
                 level.allowed (filter (logger_of c)) v = true).
      { intros v Hv. unfold logger_of; cbn. destruct (Debug c), v; try reflexivity; congruence. }
      rewrite !Hallow by discriminate.
      cbn [mux trace registry].
      assert (Hmux2 :
        {| http.m := <["/" := {| http.h := http.HandlerFunc (landing c); http.pattern := "/" |}]>
                       (<[WebPath c := {| http.h := http.PromHandler; http.pattern := WebPath c |}]> ∅);
           http.es := if HasSuffixSlash "/"
                      then http.appendSorted
                             (if HasSuffixSlash (WebPath c)
                              then [{| http.h := http.PromHandler; http.pattern := WebPath c |}] else [])
                             {| http.h := http.HandlerFunc (landing c); http.pattern := "/" |}
                      else (if HasSuffixSlash (WebPath c)
                            then [{| http.h := http.PromHandler; http.pattern := WebPath c |}] else []);
           http.hosts := negb (HasPrefix (WebPath c) "/") || negb (HasPrefix "/" "/") |}
        = mux_of c).
      { unfold mux_of. f_equal.
        - cbn [HasSuffixSlash Ascii.eqb]. cbn.
          destruct (HasSuffixSlash (WebPath c)) eqn:Hsl; [|reflexivity].
          cbn. destruct (WebPath c) as [|a [|b s]]; cbn; try reflexivity; congruence.
        - cbn. rewrite orb_false_r. reflexivity. }
      rewrite Hmux2.
      destruct (listen w (WebAddr c)) as [|[e|]]; cbn;
        rewrite <- ?app_assoc; reflexivity.
Qed.

Theorem run_unfold w : run w = run_spec w.
Proof.
  unfold run, run_spec.
  change (main w (init w)) with
    (godotenv_Load ;;
     c ← arg_MustParse w defaults;
     (if String.eqb (DigitalOceanToken c) EmptyString
      then panic token_panic else mret tt) ;;
     level_Info (logger_of c)
       [("msg", "starting digitalocean_exporter");
        ("version", ld_Version w); ("revision", ld_Revision w);
        ("buildDate", ld_BuildDate w); ("goVersion", runtime_Version w)] ;;
     MustRegisterAll (collectors w c) (serve_phase w c)).
  unfold godotenv_Load, arg_MustParse, level_Info, Log, os_Exit, panic, halt, emit.
  unfold mbind, Go_bind, mret, Go_ret. cbn [mux trace registry app].
  destruct (arguments w) as [o|code]; [|reflexivity].
  cbn [mux trace registry app].
  destruct (String.eqb _ EmptyString) eqn:Htok; [reflexivity|].
  cbn [mux trace registry app].
  replace (level.allowed (filter (logger_of (apply_overrides o defaults))) level.InfoValue)
    with true by (unfold logger_of; cbn; destruct (default _ _); reflexivity).
  cbn [mux trace registry app].
  rewrite MustRegisterAll_run. cbn [registry].
  destruct (first_collision [] _) as [[[n a] b]|]; [reflexivity|].
  apply serve_phase_run. reflexivity.
Qed.

(** ** Facts about the closed form *)

Lemma first_collision_Some cs : forall reg n a b,
  first_collision reg cs = Some (n, a, b) ->
  cs !! n = Some a /\ In b (reg ++ take n cs) /\ prometheus.collide b a = true.
Proof.
  induction cs as [|c cs IH]; intros reg n a b H; [discriminate|].
  cbn [first_collision] in H.
  destruct (List.find _ reg) as [other|] eqn:Hf.
  - injection H as <- <- <-. apply List.find_some in Hf as [Hin Hc].
    cbn. rewrite app_nil_r. auto.
  - destruct (first_collision (reg ++ [c]) cs) as [[[n' a'] b']|] eqn:Hrec;
      [|discriminate].
    injection H as <- <- <-.
    apply IH in Hrec as (Hl & Hin & Hc). cbn.
    rewrite <- app_assoc in Hin. auto.
Qed.

Lemma first_collision_None cs : forall reg,
  first_collision reg cs = None ->
  forall j b, cs !! j = Some b ->
  forall a, In a (reg ++ take j cs) -> prometheus.collide a b = false.
Proof.
  induction cs as [|c cs IH]; intros reg H j b Hj a Ha; [discriminate|].
  cbn [first_collision] in H.
  destruct (List.find _ reg) as [other|] eqn:Hf; [discriminate|].
  destruct (first_collision (reg ++ [c]) cs) as [[[n' a'] b']|] eqn:Hrec;
    [discriminate|].
  destruct j as [|j]; cbn in Hj, Ha.
  - injection Hj as ->. rewrite app_nil_r in Ha.
    exact (List.find_none _ _ Hf a Ha).
  - apply (IH _ Hrec j b Hj a). rewrite <- app_assoc. exact Ha.
Qed.

Lemma first_collision_pairwise cs reg :
  first_collision reg cs = None ->
  forall i j a b, (i < j)%nat -> cs !! i = Some a -> cs !! j = Some b ->
    prometheus.collide a b = false.
Proof.
  intros H i j a b Hij Hi Hj.
  apply (first_collision_None cs reg H j b Hj a).
  apply in_or_app. right. apply list_elem_of_In.
  apply list_elem_of_lookup. exists i. rewrite lookup_take_lt by exact Hij. exact Hi.
Qed.

Lemma first_collision_found cs : forall reg i j a b,
  (i < j)%nat -> cs !! i = Some a -> cs !! j = Some b ->
  prometheus.collide a b = true ->
  first_collision reg cs <> None.
Proof.
  intros reg i j a b Hij Hi Hj Hc Hnone.
  rewrite (first_collision_pairwise cs reg Hnone i j a b Hij Hi Hj) in Hc.
  discriminate.
Qed.

Lemma registrations_app tr1 tr2 :
  registrations (tr1 ++ tr2) = registrations tr1 ++ registrations tr2.
Proof. apply omap_app. Qed.

Lemma registrations_map cs : registrations (map EvMustRegister cs) = cs.
Proof. induction cs as [|c cs IH]; [reflexivity|]. cbn. f_equal. exact IH. Qed.

Lemma existsb_map_register (f : Event -> bool) cs :
  (forall c, f (EvMustRegister c) = false) ->
  existsb f (map EvMustRegister cs) = false.
Proof.
  intros Hf. induction cs as [|c cs IH]; [reflexivity|].
  cbn. rewrite Hf. exact IH.
Qed.

(** A list with a single element satisfying [P] splits around it in one
    way only. *)
Lemma unique_split {A : Type} (P : A -> bool) (l1 : list A) :
  forall x l2 tr1 y tr2,
  existsb P l1 = false -> existsb P l2 = false -> P y = true ->
  l1 ++ x :: l2 = tr1 ++ y :: tr2 ->
  tr1 = l1 /\ y = x /\ tr2 = l2.
Proof.
  induction l1 as [|a l1 IH]; intros x l2 tr1 y tr2 H1 H2 Hy Heq.
  - destruct tr1 as [|a' tr1]; cbn in Heq.
    + injection Heq as -> ->. auto.
    + injection Heq as -> ->.
      rewrite existsb_app in H2. cbn in H2. rewrite Hy in H2.
      rewrite orb_true_r in H2. discriminate.
  - cbn in H1. apply orb_false_iff in H1 as [Ha H1].
    destruct tr1 as [|a' tr1]; cbn in Heq.
    + injection Heq as -> _. congruence.
    + injection Heq as -> Heq.
      destruct (IH _ _ _ _ _ H1 H2 Hy Heq) as (-> & -> & ->). auto.
Qed.

Lemma no_listen_no_split tr tr1 addr tr2 :
  existsb is_listen tr = false -> tr <> tr1 ++ EvListenAndServe addr :: tr2.
Proof.
  intros H ->. rewrite existsb_app in H. cbn in H.
  rewrite orb_true_r in H. discriminate.
Qed.

(** Case analysis on a run: replace [run w] by its closed form and split
    on everything the closed form branches on. *)
Ltac run_cases w :=
  rewrite ?(run_unfold w) in *; unfold run_spec, configured in *;
  destruct (arguments w) as [?o|?code] eqn:?Hargs;
  [ destruct (String.eqb_spec
                (DigitalOceanToken (apply_overrides o defaults)) EmptyString)
      as [?Htok|?Htok];
    [ | destruct (first_collision [] (collectors w (apply_overrides o defaults)))
          as [[[?n ?a] ?b]|] eqn:?Hcol;
        [ | unfold serve_spec in *;
            destruct (String.eqb_spec (WebPath (apply_overrides o defaults))
                        EmptyString) as [?Hpath|?Hpath];
            [ | destruct (String.eqb_spec
                            (WebPath (apply_overrides o defaults)) "/")
                  as [?Hroot|?Hroot];
                [ | destruct (listen w (WebAddr (apply_overrides o defaults)))
                      as [|[?e|]] eqn:?Hlisten ] ] ] ]
  | ];
  cbn [fst snd trace registry mux registered refused app] in *.

Lemma first_registration_attempted c cs n a b :
  first_collision [] (c :: cs) = Some (n, a, b) ->
  In (EvMustRegister c) (map EvMustRegister (take n (c :: cs))).
Proof.
  cbn [first_collision List.find]. intros H.
  destruct (first_collision ([] ++ [c]) cs) as [[[n' a'] b']|]; [|discriminate].
  injection H as <- <- <-. cbn. tauto.
Qed.

(** Membership in a trace given as conses and appends. *)
Ltac in_trace := cbn [In]; rewrite ?in_app_iff; cbn [In map]; auto 12.

(** ** Properties of the run *)

(** C9. For every configuration, [Token] returns a non-nil token whose
    [AccessToken] is the configured [DigitalOceanToken], together with a
    nil error; the empty string is handed on like any other. *)
Theorem token_method_never_fails :
  forall c : Config,
    exists tok : oauth2.Token,
      Config_Token c = (Some tok, None) /\
      oauth2.AccessToken tok = DigitalOceanToken c.
Proof.
  intros c. eexists. split; [reflexivity|]. reflexivity.
Qed.

(** C1. With an empty token after configuration loading the run panics
    with "DigitalOcean Token is required" (exit status 2) and its trace
    holds no registration, no mux registration and no listen call, the
    registry being still empty; with a non-empty token the run does not
    end in that panic and goes on to log its start and to make the first
    [MustRegister] call. *)
Theorem missing_token_is_fatal :
  forall (w : World) (c : Config),
    configured w = Some c ->
    (DigitalOceanToken c = EmptyString ->
       fst (run w) = inr (Panicked token_panic) /\
       exit_code (fst (run w)) = Some 2 /\
       registry (snd (run w)) = [] /\
       existsb (fun e => is_register e || is_handle e || is_listen e)
         (trace (snd (run w))) = false) /\
    (DigitalOceanToken c <> EmptyString ->
       fst (run w) <> inr (Panicked token_panic) /\
       In (starting_event w) (trace (snd (run w))) /\
       In (EvMustRegister
             (NewAccountCollector w (logger_of c) (client_of c) (timeout_of c)))
          (trace (snd (run w)))).
Proof.
  intros w c Hc. split; intros Ht.
  - run_cases w; try discriminate; injection Hc as <-; try contradiction.
    repeat split; reflexivity.
  - run_cases w; try discriminate; injection Hc as <-; try contradiction.
    all: split; [discriminate|]; split; [solve [in_trace]|].
    all: cbn [In]; rewrite in_app_iff; do 3 right; left.
    (* refused: the first registration meets an empty registry *)
    { exact (first_registration_attempted _ _ _ _ _ Hcol). }
    all: apply in_map; left; reflexivity.
Qed.

Lemma missing_token_is_fatal_witness :
  (configured world_no_token = Some defaults /\
   DigitalOceanToken defaults = EmptyString /\
   fst (run world_no_token) = inr (Panicked token_panic) /\
   exit_code (fst (run world_no_token)) = Some 2) /\
  (fst (run world_serving) <> inr (Panicked token_panic) /\
   In (starting_event world_serving) (trace (snd (run world_serving)))).
Proof.
  split.
  - destruct (proj1 (missing_token_is_fatal world_no_token defaults eq_refl)
                eq_refl) as (H1 & H2 & _).
    repeat split; assumption.
  - destruct (proj2 (missing_token_is_fatal world_serving _ eq_refl))
      as (H1 & H2 & _).
    + cbn. discriminate.
    + split; assumption.
Defined.

Lemma listen_free_prefix w c :
  existsb is_listen
    (EvDotenvLoad :: EvMustParse defaults :: starting_event w
       :: map EvMustRegister (collectors w c)
          ++ [EvHandle (WebPath c) http.PromHandler;
              EvHandle "/" (http.HandlerFunc (landing c));
              listening_event c]) = false.
Proof.
  cbn [existsb is_listen starting_event orb]. rewrite existsb_app.
  rewrite existsb_map_register by reflexivity. reflexivity.
Qed.

Lemma regroup {A : Type} (a b c : A) l x y z v t :
  a :: b :: c :: l ++ x :: y :: z :: v :: t
  = (a :: b :: c :: l ++ [x; y; z]) ++ v :: t.
Proof. cbn. rewrite <- app_assoc. reflexivity. Qed.

(** The three ways a run gets as far as [ListenAndServe]: everything
    before the call is the same, what follows depends on the listener. *)
Lemma listening_runs w tr1 addr tr2 :
  trace (snd (run w)) = tr1 ++ EvListenAndServe addr :: tr2 ->
  exists c,
    configured w = Some c /\
    DigitalOceanToken c <> EmptyString /\
    first_collision [] (collectors w c) = None /\
    WebPath c <> EmptyString /\ WebPath c <> "/" /\
    addr = WebAddr c /\
    tr1 = EvDotenvLoad :: EvMustParse defaults :: starting_event w
            :: map EvMustRegister (collectors w c)
               ++ [EvHandle (WebPath c) http.PromHandler;
                   EvHandle "/" (http.HandlerFunc (landing c));
                   listening_event c] /\
    registry (snd (run w)) = collectors w c /\
    mux (snd (run w)) = mux_of c /\
    match listen w (WebAddr c) with
    | ServesForever => tr2 = [] /\ fst (run w) = inr Serving
    | ListenReturns None => tr2 = [] /\ fst (run w) = inl tt
    | ListenReturns (Some e) =>
        tr2 = [listen_error_event e; EvExit 1] /\ fst (run w) = inr (Exited 1)
    end.
Proof.
  intros Htr. run_cases w.
  all: try solve
         [ exfalso; revert Htr; apply no_listen_no_split; cbn;
           rewrite ?existsb_app, ?existsb_map_register by reflexivity;
           reflexivity ].
  all: rewrite regroup in Htr.
  all: apply (unique_split is_listen) in Htr as (-> & Heq & ->);
         [ | apply listen_free_prefix | reflexivity | reflexivity ].
  all: injection Heq as ->.
  all: exists (apply_overrides o defaults).
  all: rewrite Hlisten.
  all: repeat split; auto.
Qed.

Lemma registrations_prefix w c :
  registrations
    (EvDotenvLoad :: EvMustParse defaults :: starting_event w
       :: map EvMustRegister (collectors w c)
          ++ [EvHandle (WebPath c) http.PromHandler;
              EvHandle "/" (http.HandlerFunc (landing c));
              listening_event c]) = collectors w c.
Proof.
  change (registrations (?a :: ?b :: ?c :: ?l))
    with (registrations l).
  rewrite registrations_app, registrations_map.
  change (registrations [_; _; _]) with (@nil Collector). apply app_nil_r.
Qed.

(** C2. In every run that calls [ListenAndServe], the events before the
    call hold the ten [MustRegister] calls (one per resource type, in
    program order), no [MustRegister] call follows it, and the registry
    the run ends with is exactly what those ten calls put there. *)
Theorem registrations_precede_listening :
  forall (w : World) (tr1 : list Event) (addr : string) (tr2 : list Event),
    trace (snd (run w)) = tr1 ++ EvListenAndServe addr :: tr2 ->
    length (registrations tr1) = 10%nat /\
    map kind (registrations tr1) = all_kinds /\
    existsb is_register tr2 = false /\
    registrations tr2 = [] /\
    registry (snd (run w)) = registrations tr1.
Proof.
  intros w tr1 addr tr2 Htr.
  destruct (listening_runs w tr1 addr tr2 Htr)
    as (c & _ & _ & _ & _ & _ & _ & -> & Hreg & _ & Hl).
  rewrite registrations_prefix.
  assert (Htr2 : existsb is_register tr2 = false /\ registrations tr2 = []).
  { destruct (listen w (WebAddr c)) as [|[e|]]; destruct Hl as [-> _];
      split; reflexivity. }
  destruct Htr2. repeat split; auto.
Qed.

Lemma registrations_precede_listening_witness :
  exists tr1 addr,
    trace (snd (run world_serving)) = tr1 ++ [EvListenAndServe addr] /\
    length (registrations tr1) = 10%nat /\
    registry (snd (run world_serving)) = registrations tr1.
Proof.
  eexists (take 16 (trace (snd (run world_serving)))), ":9212".
  assert (H : trace (snd (run world_serving))
              = take 16 (trace (snd (run world_serving)))
                  ++ [EvListenAndServe ":9212"]) by reflexivity.
  split; [exact H|].
  destruct (registrations_precede_listening world_serving _ _ _ H)
    as (H1 & _ & _ & _ & H5).
  split; assumption.
Defined.

Lemma kinds_of_collectors w c : map kind (collectors w c) = all_kinds.
Proof. reflexivity. Qed.

(** The collectors handed to [MustRegister] in a run are an initial
    segment of the ten, and so is the registry. *)
Lemma registrations_run w :
  registrations (trace (snd (run w))) = []
  \/ exists c m,
       configured w = Some c /\
       registrations (trace (snd (run w))) = take m (collectors w c).
Proof.
  run_cases w; try (left; reflexivity); right;
    exists (apply_overrides o defaults).
  1: { (* a registration is refused *)
    exists (S n). split; [reflexivity|].
    change (registrations (?a :: ?b :: ?c :: ?l)) with (registrations l).
    rewrite registrations_app, registrations_map.
    destruct (first_collision_Some _ _ _ _ _ Hcol) as (Hn & _ & _).
    rewrite (take_S_r _ _ _ Hn). reflexivity. }
  all: exists 10%nat; split; [reflexivity|];
    change (registrations (?a :: ?b :: ?c :: ?l)) with (registrations l);
    rewrite registrations_app, registrations_map; reflexivity.
Qed.

(** C4. The [MustRegister] calls of any run name an initial segment of
    the ten resource types in program order; a run that gets to
    [ListenAndServe] has registered all ten, and each of the ten types
    occurs exactly once among them. *)
Theorem one_collector_per_resource_type :
  forall w : World,
    (exists rest,
       all_kinds = map kind (registrations (trace (snd (run w)))) ++ rest) /\
    (forall tr1 addr tr2,
       trace (snd (run w)) = tr1 ++ EvListenAndServe addr :: tr2 ->
       map kind (registry (snd (run w))) = all_kinds /\
       forall k : Kind,
         count_occ Kind_eq_dec (map kind (registry (snd (run w)))) k = 1%nat).
Proof.
  intros w. split.
  - destruct (registrations_run w) as [->|(c & m & _ & ->)].
    + exists all_kinds. reflexivity.
    + exists (drop m all_kinds).
      rewrite <- (kinds_of_collectors w c), List.skipn_map, <- List.map_app.
      rewrite List.firstn_skipn. reflexivity.
  - intros tr1 addr tr2 Htr.
    destruct (listening_runs w tr1 addr tr2 Htr)
      as (c & _ & _ & _ & _ & _ & _ & _ & -> & _).
    rewrite kinds_of_collectors. split; [reflexivity|].
    intros []; reflexivity.
Qed.

Lemma one_collector_per_resource_type_witness :
  map kind (registry (snd (run world_serving))) = all_kinds /\
  count_occ Kind_eq_dec (map kind (registry (snd (run world_serving))))
    Droplet = 1%nat.
Proof.
  assert (H : trace (snd (run world_serving))
              = take 16 (trace (snd (run world_serving)))
                  ++ EvListenAndServe ":9212" :: []) by reflexivity.
  destruct (proj2 (one_collector_per_resource_type world_serving) _ _ _ H)
    as [H1 H2].
  split; [exact H1 | exact (H2 Droplet)].
Defined.

(** C3. Registration, modelled from section 4.3 of the spec. If two of
    the ten collectors declare a metric with the same fully-qualified name
    and label schema, the run ends in the panic of [MustRegister] (exit
    status 2) without ever reaching the mux or [ListenAndServe]; and when
    the registry ends up holding all ten, no two of them collide. *)
Theorem colliding_collectors_abort_startup :
  forall (w : World) (c : Config),
    configured w = Some c ->
    DigitalOceanToken c <> EmptyString ->
    ((exists i j a b,
        (i < j)%nat /\
        collectors w c !! i = Some a /\ collectors w c !! j = Some b /\
        prometheus.collide a b = true) ->
     (exists a b, fst (run w) = inr (Panicked (PanicAlreadyRegistered a b))) /\
     exit_code (fst (run w)) = Some 2 /\
     existsb (fun e => is_handle e || is_listen e)
       (trace (snd (run w))) = false) /\
    (registry (snd (run w)) = collectors w c ->
     forall i j a b,
       (i < j)%nat ->
       collectors w c !! i = Some a -> collectors w c !! j = Some b ->
       prometheus.collide a b = false).
Proof.
  intros w c Hc Ht. split.
  - intros (i & j & a & b & Hij & Hi & Hj & Hcoll).
    run_cases w; try discriminate; injection Hc as <-; try contradiction.
    2-6: exfalso; exact (first_collision_found _ _ _ _ _ _ Hij Hi Hj Hcoll Hcol).
    split; [eauto|]. split; [reflexivity|].
    cbn [existsb is_handle is_listen starting_event orb].
    rewrite existsb_app, existsb_map_register by reflexivity. reflexivity.
  - intros Hreg.
    run_cases w; try discriminate; injection Hc as <-; try contradiction.
    2-6: exact (first_collision_pairwise _ _ Hcol).
    (* a refused registration leaves fewer than ten in the registry *)
    exfalso.
    destruct (first_collision_Some _ _ _ _ _ Hcol) as (Hn & _ & _).
    apply lookup_lt_Some in Hn.
    apply (f_equal length) in Hreg. rewrite length_take in Hreg. lia.
Qed.

Lemma colliding_collectors_abort_startup_witness :
  (exists a b,
     fst (run world_collision) = inr (Panicked (PanicAlreadyRegistered a b))) /\
  (forall i j a b,
     (i < j)%nat ->
     collectors world_serving (apply_overrides (with_token "dop_v1_0123") defaults)
       !! i = Some a ->
     collectors world_serving (apply_overrides (with_token "dop_v1_0123") defaults)
       !! j = Some b ->
     prometheus.collide a b = false).
Proof.
  split.
  - refine (proj1 (proj1 (colliding_collectors_abort_startup world_collision _
                            eq_refl _) _)).
    + cbn. discriminate.
    + exists 2%nat, 9%nat. do 2 eexists.
      split; [lia|]. split; [reflexivity|]. split; reflexivity.
  - refine (proj2 (colliding_collectors_abort_startup world_serving _
                     eq_refl _) _).
    + cbn. discriminate.
    + reflexivity.
Defined.

Lemma In_take {A : Type} (x : A) n l : In x (take n l) -> In x l.
Proof.
  revert l; induction n as [|n IH]; intros [|y l] H; cbn in H; try tauto.
  destruct H as [->|H]; [left; reflexivity | right; auto].
Qed.

Lemma In_registrations col tr :
  In (EvMustRegister col) tr -> In col (registrations tr).
Proof.
  induction tr as [|e tr IH]; [tauto|]. intros [->|H].
  - left. reflexivity.
  - destruct e; cbn; auto.
Qed.

(** Whatever is handed to [MustRegister] is one of the ten collectors
    built from the configuration. *)
Lemma registered_collector w col :
  In (EvMustRegister col) (trace (snd (run w))) ->
  exists c, configured w = Some c /\ In col (collectors w c).
Proof.
  intros H. apply In_registrations in H.
  destruct (registrations_run w) as [Hnil|(c & m & Hc & Hm)].
  - rewrite Hnil in H. destruct H.
  - rewrite Hm in H. exists c. split; [exact Hc|]. exact (In_take _ _ _ H).
Qed.

Lemma wrap64_mul_l z k : wrap64 (wrap64 z * k) = wrap64 (z * k).
Proof.
  unfold wrap64.
  pose proof (Z.div_mod (z + 2 ^ 63) (2 ^ 64) ltac:(lia)) as Hdm.
  set (q := (z + 2 ^ 63) / 2 ^ 64) in *.
  set (r := (z + 2 ^ 63) mod 2 ^ 64) in *.
  replace ((r - 2 ^ 63) * k + 2 ^ 63)
    with (z * k + 2 ^ 63 + (- q * k) * 2 ^ 64) by lia.
  rewrite Z_mod_plus_full. reflexivity.
Qed.

Lemma wrap64_id z : int64_range z -> wrap64 z = z.
Proof.
  unfold int64_range, wrap64. intros H.
  rewrite Z.mod_small by lia. lia.
Qed.

Lemma timeout_of_wrap c : timeout_of c = wrap64 (HTTPTimeout c * 1000000).
Proof. unfold timeout_of, time.mul, time.of_int. apply wrap64_mul_l. Qed.

(** C5, as stated, fails: with HTTP_TIMEOUT=9223372036855 the product
    with [time.Millisecond] leaves the 64-bit range, and the duration
    handed to the API-backed collectors is negative instead of
    9223372036855 milliseconds. *)
Lemma timeout_wraps_around :
  configured world_long_timeout
    = Some (apply_overrides
              {| set_Debug := None;
                 set_DigitalOceanToken := Some "dop_v1_0123";
                 set_HTTPTimeout := Some 9223372036855;
                 set_WebAddr := None;
                 set_WebPath := None |} defaults) /\
  (exists col,
     In (EvMustRegister col) (trace (snd (run world_long_timeout))) /\
     kind col = Droplet /\
     args_timeout (args col) = Some (-9223372036854551616)) /\
  -9223372036854551616 <> 9223372036855 * time.Millisecond.
Proof.
  split; [reflexivity|]. split.
  - eexists. split; [|split].
    + rewrite run_unfold. cbn. do 5 right. left. reflexivity.
    + reflexivity.
    + reflexivity.
  - discriminate.
Qed.

(** C5, amended. A field for which go-arg finds neither its environment
    variable nor a flag keeps its default: timeout 5000, listen address
    [:9212], scrape path [/metrics]. The timeout [t] becomes the
    duration [t * 1000000] nanoseconds in 64-bit wrap-around arithmetic,
    which is [t] milliseconds whenever [t] lies between -9223372036854
    and 9223372036854, and that same duration is the timeout of every
    API-backed collector handed to [MustRegister]. *)
Theorem timeout_defaults_and_conversion :
  forall (w : World) (o : Overrides) (c : Config),
    arguments w = ArgsParsed o ->
    c = apply_overrides o defaults ->
    (set_HTTPTimeout o = None -> HTTPTimeout c = 5000) /\
    (set_WebAddr o = None -> WebAddr c = ":9212") /\
    (set_WebPath o = None -> WebPath c = "/metrics") /\
    timeout_of c = wrap64 (HTTPTimeout c * 1000000) /\
    (-9223372036854 <= HTTPTimeout c <= 9223372036854 ->
       timeout_of c = HTTPTimeout c * time.Millisecond) /\
    (forall col,
       In (EvMustRegister col) (trace (snd (run w))) ->
       kind col <> Exporter ->
       args_timeout (args col) = Some (timeout_of c)).
Proof.
  intros w o c Hargs ->.
  split; [intros H; cbn; rewrite H; reflexivity|].
  split; [intros H; cbn; rewrite H; reflexivity|].
  split; [intros H; cbn; rewrite H; reflexivity|].
  split; [apply timeout_of_wrap|].
  split.
  - intros Hr. rewrite timeout_of_wrap.
    change time.Millisecond with 1000000.
    apply wrap64_id. unfold int64_range. lia.
  - intros col Hin Hk.
    destruct (registered_collector w col Hin) as (c & Hc & Hcol).
    unfold configured in Hc. rewrite Hargs in Hc. injection Hc as <-.
    cbn [collectors In] in Hcol.
    repeat (destruct Hcol as [<-|Hcol]; [first [reflexivity | contradiction Hk; reflexivity]|]).
    destruct Hcol.
Qed.

Lemma timeout_defaults_and_conversion_witness :
  HTTPTimeout (apply_overrides (with_token "dop_v1_0123") defaults) = 5000 /\
  timeout_of (apply_overrides (with_token "dop_v1_0123") defaults)
    = 5000 * time.Millisecond /\
  (forall col,
     In (EvMustRegister col) (trace (snd (run world_serving))) ->
     kind col <> Exporter ->
     args_timeout (args col) = Some 5000000000).
Proof.
  destruct (timeout_defaults_and_conversion world_serving
              (with_token "dop_v1_0123") _ eq_refl eq_refl)
    as (H1 & _ & _ & _ & H5 & H6).
  split; [exact (H1 eq_refl)|].
  split; [apply H5; cbn; lia|].
  exact H6.
Defined.

(** C6. A run exits with status 0 only when nothing failed on the way (no
    panic, no error-level log line, no non-zero [os.Exit]): either go-arg
    itself ended the process with 0, or all ten collectors were
    registered and [ListenAndServe] returned without an error. A missing
    token ends the run with status 2. When [ListenAndServe] returns an
    error the run logs it at error level, then calls [os.Exit(1)], and
    these are the last two events of the trace. *)
Theorem exit_status :
  forall w : World,
    (exit_code (fst (run w)) = Some 0 ->
       existsb is_failure (trace (snd (run w))) = false /\
       (arguments w = ArgsExit 0 \/
        exists c,
          configured w = Some c /\
          DigitalOceanToken c <> EmptyString /\
          registry (snd (run w)) = collectors w c /\
          listen w (WebAddr c) = ListenReturns None)) /\
    (forall c,
       configured w = Some c ->
       DigitalOceanToken c = EmptyString ->
       exit_code (fst (run w)) = Some 2) /\
    (forall addr e,
       In (EvListenAndServe addr) (trace (snd (run w))) ->
       listen w addr = ListenReturns (Some e) ->
       exit_code (fst (run w)) = Some 1 /\
       exists tr,
         trace (snd (run w))
           = tr ++ [EvListenAndServe addr; listen_error_event e; EvExit 1]).
Proof.
  intros w. split; [|split].
  - intros Hexit. run_cases w; try discriminate.
    + (* [main] returned *)
      split.
      * cbn [existsb is_failure starting_event orb].
        rewrite existsb_app, existsb_map_register by reflexivity. reflexivity.
      * right. exists (apply_overrides o defaults). auto.
    + (* go-arg ended the process *)
      injection Hexit as ->. split; [reflexivity | left; reflexivity].
  - intros c Hc Ht.
    run_cases w; try discriminate; injection Hc as <-; try contradiction.
    reflexivity.
  - intros addr e Hin Hl.
    apply in_split in Hin as (tr1 & tr2 & Htr).
    destruct (listening_runs w tr1 addr tr2 Htr)
      as (c & _ & _ & _ & _ & _ & -> & _ & _ & _ & Hcase).
    rewrite Hl in Hcase. destruct Hcase as [-> Hfst].
    rewrite Hfst, Htr. split; [reflexivity|]. exists tr1. reflexivity.
Qed.

Lemma exit_status_witness :
  exit_code (fst (run world_no_token)) = Some 2 /\
  exit_code (fst (run world_bind_failure)) = Some 1 /\
  exists tr,
    trace (snd (run world_bind_failure))
      = tr ++ [EvListenAndServe ":9212";
               listen_error_event
                 "listen tcp :9212: bind: address already in use";
               EvExit 1].
Proof.
  destruct (exit_status world_no_token) as (_ & H2 & _).
  destruct (exit_status world_bind_failure) as (_ & _ & H3).
  split; [exact (H2 defaults eq_refl eq_refl)|].
  apply H3; [|reflexivity].
  rewrite run_unfold. cbn. do 16 right. left. reflexivity.
Defined.



Lemma mux_lookup c s :
  http.m (mux_of c) !! s =
    if String.eqb s "/" then Some (landing_entry c)
    else if String.eqb s (WebPath c) then Some (scrape_entry c)
    else None.
Proof.
  unfold mux_of. cbn [http.m].
  destruct (String.eqb_spec s "/") as [->|Hs].
  - apply lookup_insert_eq.
  - rewrite lookup_insert_ne by congruence.
    destruct (String.eqb_spec s (WebPath c)) as [->|Hw].
    + apply lookup_insert_eq.
    + rewrite lookup_insert_ne by congruence. apply lookup_empty.
Qed.

Lemma HasPrefix_slash_cons s : HasPrefix ("/" +:+ s) "/" = true.
Proof. destruct s; reflexivity. Qed.

Lemma HasPrefix_slash_inv s :
  HasPrefix s "/" = true -> exists s', s = String "/"%char s'.
Proof.
  intros H. destruct s as [|a s]; [discriminate|].
  unfold HasPrefix in H. cbn [String.prefix] in H.
  destruct (ascii_dec "/" a) as [<-|]; [eauto | discriminate].
Qed.

Lemma HasPrefix_slash_app s t :
  HasPrefix s "/" = true -> HasPrefix (s +:+ t) "/" = true.
Proof.
  intros H. apply HasPrefix_slash_inv in H as [s' ->].
  apply (HasPrefix_slash_cons (s' +:+ t)).
Qed.

Lemma path_Clean_rooted p :
  HasPrefix p "/" = true -> HasPrefix (path_Clean p) "/" = true.
Proof.
  intros H. destruct (HasPrefix_slash_inv _ H) as [s' ->].
  unfold path_Clean. cbn [String.eqb]. rewrite H.
  apply HasPrefix_slash_cons.
Qed.

(** The canonical form of a request path always begins with a slash. *)
Lemma cleanPath_rooted p : HasPrefix (http.cleanPath p) "/" = true.
Proof.
  unfold http.cleanPath.
  destruct (String.eqb p EmptyString); [reflexivity|].
  set (p' := if HasPrefix p "/" then p else "/" +:+ p).
  assert (Hp' : HasPrefix p' "/" = true).
  { unfold p'. destruct (HasPrefix p "/") eqn:H;
      [exact H | apply HasPrefix_slash_cons]. }
  pose proof (path_Clean_rooted p' Hp') as Hc.
  destruct (_ && _); [apply HasPrefix_slash_app|]; exact Hc.
Qed.





Lemma serving_mux w c addr :
  configured w = Some c ->
  In (EvListenAndServe addr) (trace (snd (run w))) ->
  mux (snd (run w)) = mux_of c /\
  WebPath c <> EmptyString /\ WebPath c <> "/".
Proof.
  intros Hc Hin. apply in_split in Hin as (tr1 & tr2 & Htr).
  destruct (listening_runs w tr1 addr tr2 Htr)
    as (c' & Hc' & _ & _ & Hne & Hnr & _ & _ & _ & Hmux & _).
  rewrite Hc in Hc'. injection Hc' as <-. auto.
Qed.

Lemma append_assoc s t u : (s +:+ t) +:+ u = s +:+ (t +:+ u).
Proof.
  induction s as [|a s IH]; [reflexivity|].
  change (String a ((s +:+ t) +:+ u) = String a (s +:+ (t +:+ u))).
  rewrite IH. reflexivity.
Qed.

Lemma landing_writes c r :
  landing c http.NewResponseWriter r =
    {| http.status := Some http.StatusOK;
       http.location := None;
       http.written :=
         ("<html>" +:+ LF +:+ TAB +:+ TAB +:+ TAB +:+
          "<head><title>DigitalOcean Exporter</title></head>" +:+ LF +:+
          TAB +:+ TAB +:+ TAB +:+ "<body>" +:+ LF +:+
          TAB +:+ TAB +:+ TAB +:+ "<h1>DigitalOcean Exporter</h1>" +:+ LF +:+
          TAB +:+ TAB +:+ TAB +:+ "<p>")
         +:+ ("<a href=" +:+ DQUOTE +:+ WebPath c +:+ DQUOTE
                +:+ ">Metrics</a>")
         +:+ ("</p>" +:+ LF +:+ TAB +:+ TAB +:+ TAB +:+ "</body>" +:+ LF +:+
              TAB +:+ TAB +:+ TAB +:+ "</html>") |}.
Proof.
  unfold landing, http.Write, http.NewResponseWriter.
  cbn [http.status http.location http.written default].
  f_equal. rewrite !append_assoc. reflexivity.
Qed.

(** C8, as stated, fails: with WEB_PATH=/ the scrape handler already
    occupies the pattern [/], the registration of the landing page
    panics, and the run never gets to [ListenAndServe]; no request for
    [/] is ever answered. *)
Lemma root_scrape_path_never_serves :
  (exists c,
     configured world_root_scrape_path = Some c /\
     DigitalOceanToken c <> EmptyString /\
     WebPath c = "/") /\
  fst (run world_root_scrape_path)
    = inr (Panicked (PanicString "http: multiple registrations for /")) /\
  existsb is_listen (trace (snd (run world_root_scrape_path))) = false.
Proof.
  split; [eexists; split; [reflexivity|]; split; [discriminate|reflexivity]|].
  rewrite run_unfold. split; reflexivity.
Qed.

(** C8, amended. When the scrape path begins with a slash and the run has
    got to [ListenAndServe] (which rules out the scrape path [/]), a
    request for [/] is answered by the landing handler with status 200,
    and what it writes contains the anchor whose [href], between double
    quotes, is the configured scrape path byte for byte. *)
Theorem landing_page_links_to_scrape_path :
  forall (w : World) (c : Config) (addr host : string),
    configured w = Some c ->
    In (EvListenAndServe addr) (trace (snd (run w))) ->
    HasPrefix (WebPath c) "/" = true ->
    exists rw,
      http.ServeHTTP (mux (snd (run w))) http.NewResponseWriter
        {| http.Host := host; http.Path := "/" |} = Some rw /\
      http.status rw = Some 200 /\
      (exists pre post,
         http.written rw
           = pre +:+ ("<a href=" +:+ DQUOTE +:+ WebPath c +:+ DQUOTE
                        +:+ ">Metrics</a>") +:+ post) /\
      WebPath c <> "/".
Proof.
  intros w c addr host Hc Hin Hroot.
  destruct (serving_mux w c addr Hc Hin) as (-> & Hne & Hnr).
  exists (landing c http.NewResponseWriter
            {| http.Host := host; http.Path := "/" |}).
  split; [|split; [reflexivity|split; [|exact Hnr]]].
  - unfold http.ServeHTTP, http.Handler_.
    cbn [http.Path http.Host String.eqb Ascii.eqb Bool.eqb].
    change (http.cleanPath "/") with "/".
    assert (Hsr : http.shouldRedirect (mux_of c) host "/" = false).
    { unfold http.shouldRedirect. cbn [existsb]. rewrite mux_lookup.
      cbn [String.eqb Ascii.eqb Bool.eqb].
      rewrite bool_decide_eq_true_2 by eauto. reflexivity. }
    rewrite Hsr. cbn [String.eqb Ascii.eqb Bool.eqb negb].
    assert (Hh : http.hosts (mux_of c) = false).
    { unfold mux_of. cbn [http.hosts]. rewrite Hroot. reflexivity. }
    unfold http.handler, http.match_. rewrite Hh, mux_lookup. reflexivity.
  - rewrite landing_writes. cbn [http.written]. eauto.
Qed.

Lemma landing_page_links_to_scrape_path_witness :
  exists rw,
    http.ServeHTTP (mux (snd (run world_serving))) http.NewResponseWriter
      {| http.Host := "localhost"; http.Path := "/" |} = Some rw /\
    http.status rw = Some 200.
Proof.
  assert (Hin : In (EvListenAndServe ":9212")
                  (trace (snd (run world_serving)))).
  { rewrite run_unfold. cbn. do 16 right. left. reflexivity. }
  destruct (landing_page_links_to_scrape_path world_serving _ ":9212"
              "localhost" eq_refl Hin eq_refl) as (rw & H1 & H2 & _).
  exists rw. split; assumption.
Defined.




(** ** Further properties of [main] *)

Lemma In_listen_split tr addr :
  In (EvListenAndServe addr) tr ->
  exists tr1 tr2, tr = tr1 ++ EvListenAndServe addr :: tr2.
Proof. apply in_split. Qed.



Lemma log_lines_app tr1 tr2 :
  log_lines (tr1 ++ tr2) = log_lines tr1 ++ log_lines tr2.
Proof. apply omap_app. Qed.

Lemma log_lines_map_register cs : log_lines (map EvMustRegister cs) = [].
Proof. induction cs as [|c cs IH]; [reflexivity | exact IH]. Qed.

(** Normalise the log lines of a trace given as conses and appends. *)
Ltac log_lines_simpl :=
  repeat (change (log_lines (?e :: ?l))
            with (match e with
                  | EvLog lv kvs => (lv, kvs) :: log_lines l
                  | _ => log_lines l
                  end);
          cbv beta iota delta [starting_event listening_event
                                 listen_error_event]);
  rewrite ?log_lines_app, ?log_lines_map_register;
  cbn [log_lines omap app].

(** X2. When the token is present and the ten registrations succeed, an
    empty scrape path makes [http.Handle] panic with "http: invalid
    pattern" and the scrape path [/] makes [http.HandleFunc] panic with
    "http: multiple registrations for /". Either way the process ends
    with status 2 after all ten collectors have been registered, and
    the only line it has logged is the start-up line. *)
Theorem bad_scrape_path_aborts :
  forall (w : World) (c : Config),
    configured w = Some c ->
    DigitalOceanToken c <> EmptyString ->
    first_collision [] (collectors w c) = None ->
    (WebPath c = EmptyString ->
       fst (run w) = inr (Panicked (PanicString "http: invalid pattern"))) /\
    (WebPath c = "/" ->
       fst (run w)
         = inr (Panicked (PanicString "http: multiple registrations for /"))) /\
    (WebPath c = EmptyString \/ WebPath c = "/" ->
       exit_code (fst (run w)) = Some 2 /\
       registry (snd (run w)) = collectors w c /\
       existsb is_listen (trace (snd (run w))) = false /\
       log_lines (trace (snd (run w)))
         = [(level.InfoValue,
             [("msg", "starting digitalocean_exporter");
              ("version", ld_Version w);
              ("revision", ld_Revision w);
              ("buildDate", ld_BuildDate w);
              ("goVersion", runtime_Version w)])]).
Proof.
  intros w c Hc Ht Hcol.
  run_cases w; try discriminate; injection Hc as <-;
    try contradiction; try congruence.
  - (* empty *)
    split; [reflexivity|]. split; [congruence|]. intros _.
    split; [reflexivity|]. split; [reflexivity|]. split.
    + cbn [existsb is_listen starting_event orb].
      rewrite existsb_app, existsb_map_register by reflexivity. reflexivity.
    + log_lines_simpl. reflexivity.
  - (* root *)
    split; [congruence|]. split; [reflexivity|]. intros _.
    split; [reflexivity|]. split; [reflexivity|]. split.
    + cbn [existsb is_listen starting_event orb].
      rewrite existsb_app, existsb_map_register by reflexivity. reflexivity.
    + log_lines_simpl. reflexivity.
  - split; [congruence|]. split; [congruence|]. intros [?|?]; congruence.
  - split; [congruence|]. split; [congruence|]. intros [?|?]; congruence.
  - split; [congruence|]. split; [congruence|]. intros [?|?]; congruence.
Qed.

Lemma bad_scrape_path_aborts_witness :
  fst (run world_empty_scrape_path)
    = inr (Panicked (PanicString "http: invalid pattern")) /\
  fst (run world_root_scrape_path)
    = inr (Panicked (PanicString "http: multiple registrations for /")) /\
  exit_code (fst (run world_empty_scrape_path)) = Some 2 /\
  length (registry (snd (run world_empty_scrape_path))) = 10%nat.
Proof.
  destruct (bad_scrape_path_aborts world_empty_scrape_path _ eq_refl)
    as (H1 & _ & H3); [cbn; discriminate | reflexivity |].
  destruct (bad_scrape_path_aborts world_root_scrape_path _ eq_refl)
    as (_ & H2 & _); [cbn; discriminate | reflexivity |].
  destruct (H3 (or_introl eq_refl)) as (H4 & H5 & _).
  split; [exact (H1 eq_refl)|]. split; [exact (H2 eq_refl)|].
  split; [exact H4|]. rewrite H5. reflexivity.
Defined.

(** X3. What a run logs. Nothing when go-arg ends the process or the
    token is missing. Otherwise the start-up line (with version,
    revision, build date and Go version) comes first; it is followed by
    the [listening] line exactly when the run gets to [ListenAndServe],
    and by the error line exactly when [ListenAndServe] returns an
    error. No other line is logged, whatever the debug flag is. *)
Theorem log_output :
  forall w : World,
    let start :=
      (level.InfoValue,
       [("msg", "starting digitalocean_exporter");
        ("version", ld_Version w);
        ("revision", ld_Revision w);
        ("buildDate", ld_BuildDate w);
        ("goVersion", runtime_Version w)]) in
    let listening c :=
      (level.InfoValue, [("msg", "listening"); ("addr", WebAddr c)]) in
    let failed e :=
      (level.ErrorValue, [("msg", "http listenandserve error"); ("err", e)]) in
    match configured w with
    | None => log_lines (trace (snd (run w))) = []
    | Some c =>
        if String.eqb (DigitalOceanToken c) EmptyString
        then log_lines (trace (snd (run w))) = []
        else
          if existsb is_listen (trace (snd (run w)))
          then
            match listen w (WebAddr c) with
            | ListenReturns (Some e) =>
                log_lines (trace (snd (run w)))
                  = [start; listening c; failed e]
            | _ => log_lines (trace (snd (run w))) = [start; listening c]
            end
          else log_lines (trace (snd (run w))) = [start]
    end.
Proof.
  intros w start listening failed. subst start listening failed.
  run_cases w;
    try match goal with
        | H : DigitalOceanToken _ = EmptyString |- _ => rewrite H
        | H : DigitalOceanToken _ <> EmptyString |- _ =>
            apply String.eqb_neq in H; rewrite H
        end;
    cbn [String.eqb existsb is_listen starting_event orb];
    rewrite ?existsb_app, ?existsb_map_register by reflexivity;
    cbn [existsb is_listen listening_event listen_error_event orb];
    rewrite ?orb_true_r;
    try match goal with H : listen _ _ = _ |- _ => rewrite H end;
    log_lines_simpl; reflexivity.
Qed.

(** X4. The [listening] line is the last event before the
    [ListenAndServe] call and names the address that call is given; a
    run calls [ListenAndServe] at most once. *)
Theorem listening_line_names_the_address :
  forall (w : World) (tr1 : list Event) (addr : string) (tr2 : list Event),
    trace (snd (run w)) = tr1 ++ EvListenAndServe addr :: tr2 ->
    (exists tr0,
       tr1 = tr0 ++ [EvLog level.InfoValue
                       [("msg", "listening"); ("addr", addr)]]) /\
    existsb is_listen tr1 = false /\
    existsb is_listen tr2 = false.
Proof.
  intros w tr1 addr tr2 Htr.
  destruct (listening_runs w tr1 addr tr2 Htr)
    as (c & _ & _ & _ & _ & _ & -> & -> & _ & _ & Hl).
  split; [|split].
  - eexists (_ :: _ :: _ :: _ ++ [_; _]).
    cbn [app]. rewrite <- app_assoc. reflexivity.
  - apply listen_free_prefix.
  - destruct (listen w (WebAddr c)) as [|[e|]]; destruct Hl as [-> _];
      reflexivity.
Qed.

Lemma listening_line_names_the_address_witness :
  exists tr0,
    take 16 (trace (snd (run world_serving)))
      = tr0 ++ [EvLog level.InfoValue
                  [("msg", "listening"); ("addr", ":9212")]].
Proof.
  assert (H : trace (snd (run world_serving))
              = take 16 (trace (snd (run world_serving)))
                  ++ EvListenAndServe ":9212" :: []) by reflexivity.
  exact (proj1 (listening_line_names_the_address world_serving _ _ _ H)).
Defined.

(** X5. When go-arg ends the process itself (help or version request,
    malformed value), the run stops there with go-arg's status: the token
    is not looked at, nothing is logged, registered or served. The
    destination struct go-arg was handed held the defaults. *)
Theorem parser_exit_stops_the_run :
  forall (w : World) (code : Z),
    arguments w = ArgsExit code ->
    exit_code (fst (run w)) = Some code /\
    trace (snd (run w)) = [EvDotenvLoad; EvMustParse defaults; EvExit code] /\
    registry (snd (run w)) = [] /\
    mux (snd (run w)) = http.DefaultServeMux.
Proof.
  intros w code Hargs. rewrite run_unfold. unfold run_spec.
  rewrite Hargs. repeat split.
Qed.

Lemma parser_exit_stops_the_run_witness :
  exit_code (fst (run world_help)) = Some 0 /\
  registry (snd (run world_help)) = [].
Proof.
  destruct (parser_exit_stops_the_run world_help 0 eq_refl)
    as (H1 & _ & H3 & _).
  split; assumption.
Defined.

(** X6. The process stays up (it has no exit status) exactly when the
    start-up succeeds and the listener serves without returning. *)
Theorem process_stays_up_iff :
  forall w : World,
    exit_code (fst (run w)) = None <->
    (exists c,
       configured w = Some c /\
       (exists addr, In (EvListenAndServe addr) (trace (snd (run w)))) /\
       listen w (WebAddr c) = ServesForever).
Proof.
  intros w. split.
  - intros Hx. run_cases w; try discriminate.
    exists (apply_overrides o defaults).
    split; [reflexivity|]. split; [|exact Hlisten].
    exists (WebAddr (apply_overrides o defaults)).
    cbn [In]; rewrite in_app_iff; cbn [In];
      do 3 right; right; do 3 right; left; reflexivity.
  - intros (c & Hc & (addr & Hin) & Hl).
    apply in_split in Hin as (tr1 & tr2 & Htr).
    destruct (listening_runs w tr1 addr tr2 Htr)
      as (c' & Hc' & _ & _ & _ & _ & _ & _ & _ & _ & Hcase).
    rewrite Hc in Hc'. injection Hc' as <-.
    rewrite Hl in Hcase. destruct Hcase as [_ ->]. reflexivity.
Qed.

Lemma process_stays_up_iff_witness :
  exit_code (fst (run world_serving)) = None.
Proof.
  apply (proj2 (process_stays_up_iff world_serving)).
  eexists. split; [reflexivity|]. split; [|reflexivity].
  exists ":9212". rewrite run_unfold. cbn. do 16 right. left. reflexivity.
Defined.

(** With an empty token nothing is handed to [MustRegister]. *)
Lemma no_registration_without_token w c :
  configured w = Some c ->
  DigitalOceanToken c = EmptyString ->
  registrations (trace (snd (run w))) = [].
Proof.
  intros Hc Ht.
  run_cases w; try discriminate; injection Hc as <-; try contradiction.
  reflexivity.
Qed.

(** X7. Every collector handed to [MustRegister] holds the one logger
    [main] built: its filter lets debug events through exactly when the
    debug flag is set, lets info, warn and error events through always,
    and its context keys are [ts] and [caller]. *)
Theorem collectors_share_the_filtered_logger :
  forall (w : World) (col : Collector),
    In (EvMustRegister col) (trace (snd (run w))) ->
    exists c,
      configured w = Some c /\
      args_logger (args col) = logger_of c /\
      level.allowed (filter (args_logger (args col))) level.DebugValue
        = Debug c /\
      (forall v, v <> level.DebugValue ->
         level.allowed (filter (args_logger (args col))) v = true) /\
      context (args_logger (args col)) = ["ts"; "caller"].
Proof.
  intros w col Hin.
  destruct (registered_collector w col Hin) as (c & Hc & Hcol).
  exists c. split; [exact Hc|].
  assert (Hl : args_logger (args col) = logger_of c).
  { cbn [collectors In] in Hcol.
    repeat (destruct Hcol as [<-|Hcol]; [reflexivity|]). destruct Hcol. }
  rewrite Hl. split; [reflexivity|].
  unfold logger_of. cbn [filter context].
  split; [destruct (Debug c); reflexivity|].
  split; [|reflexivity].
  intros v Hv. destruct (Debug c), v; try reflexivity; congruence.
Qed.

Lemma collectors_share_the_filtered_logger_witness :
  exists col c,
    In (EvMustRegister col) (trace (snd (run world_serving))) /\
    configured world_serving = Some c /\
    level.allowed (filter (args_logger (args col))) level.DebugValue
      = Debug c.
Proof.
  pose (c0 := apply_overrides (with_token "dop_v1_0123") defaults).
  pose (col := NewDropletCollector world_serving (logger_of c0)
                 (client_of c0) (timeout_of c0)).
  assert (Hin : In (EvMustRegister col) (trace (snd (run world_serving)))).
  { rewrite run_unfold. cbn. do 5 right. left. reflexivity. }
  destruct (collectors_share_the_filtered_logger world_serving col Hin)
    as (c & Hc & _ & Hd & _).
  exists col, c. split; [exact Hin|]. split; [exact Hc | exact Hd].
Defined.

(** X8. Every API client handed to a collector draws its tokens from the
    configuration [main] checked: its token source returns, with a nil
    error, a token whose [AccessToken] is the configured token, and that
    token is not empty. All API-backed collectors hold the same client. *)
Theorem api_clients_carry_the_checked_token :
  forall (w : World) (col : Collector) (cl : godo.Client),
    In (EvMustRegister col) (trace (snd (run w))) ->
    args_client (args col) = Some cl ->
    exists c tok,
      configured w = Some c /\
      cl = client_of c /\
      Config_Token (godo.Source (godo.client cl)) = (Some tok, None) /\
      oauth2.AccessToken tok = DigitalOceanToken c /\
      oauth2.AccessToken tok <> EmptyString.
Proof.
  intros w col cl Hin Hcl.
  assert (Htok : forall c, configured w = Some c ->
                   DigitalOceanToken c <> EmptyString).
  { intros c Hc Hempty.
    pose proof (no_registration_without_token w c Hc Hempty) as Hnone.
    apply In_registrations in Hin. rewrite Hnone in Hin. destruct Hin. }
  destruct (registered_collector w col Hin) as (c & Hc & Hcol).
  assert (Hcl' : cl = client_of c).
  { cbn [collectors In] in Hcol.
    repeat (destruct Hcol as [<-|Hcol];
            [cbn in Hcl; first [congruence | discriminate]|]).
    destruct Hcol. }
  subst cl. exists c. eexists. split; [exact Hc|]. split; [reflexivity|].
  split; [reflexivity|]. split; [reflexivity|].
  cbn. exact (Htok c Hc).
Qed.

Lemma api_clients_carry_the_checked_token_witness :
  exists col cl tok,
    In (EvMustRegister col) (trace (snd (run world_serving))) /\
    args_client (args col) = Some cl /\
    Config_Token (godo.Source (godo.client cl)) = (Some tok, None) /\
    oauth2.AccessToken tok = "dop_v1_0123".
Proof.
  pose (c0 := apply_overrides (with_token "dop_v1_0123") defaults).
  pose (col := NewDropletCollector world_serving (logger_of c0)
                 (client_of c0) (timeout_of c0)).
  assert (Hin : In (EvMustRegister col) (trace (snd (run world_serving)))).
  { rewrite run_unfold. cbn. do 5 right. left. reflexivity. }
  destruct (api_clients_carry_the_checked_token world_serving col
              (client_of c0) Hin eq_refl)
    as (c & tok & Hc & _ & Htok & Hacc & _).
  exists col, (client_of c0), tok.
  split; [exact Hin|]. split; [reflexivity|]. split; [exact Htok|].
  injection Hc as <-. exact Hacc.
Defined.

(** ** The token does not show *)

Lemma collide_descs a a' b b' :
  same_descs a a' -> same_descs b b' ->
  prometheus.collide a b = prometheus.collide a' b'.
Proof.
  unfold same_descs, prometheus.collide. intros -> ->. reflexivity.
Qed.

Lemma find_collide_descs reg reg' c c' :
  Forall2 same_descs reg reg' -> same_descs c c' ->
  (List.find (fun c0 => prometheus.collide c0 c) reg = None <->
   List.find (fun c0 => prometheus.collide c0 c') reg' = None).
Proof.
  intros Hreg Hc. induction Hreg as [|a a' reg reg' Ha _ IH]; [tauto|].
  cbn [List.find]. rewrite (collide_descs a a' c c' Ha Hc).
  destruct (prometheus.collide a' c'); [split; discriminate | exact IH].
Qed.

(** Whether and where a registration is refused depends on the
    descriptor sets alone. *)
Lemma first_collision_descs cs cs' :
  Forall2 same_descs cs cs' ->
  forall reg reg',
    Forall2 same_descs reg reg' ->
    option_map (fun x => fst (fst x)) (first_collision reg cs)
    = option_map (fun x => fst (fst x)) (first_collision reg' cs').
Proof.
  induction 1 as [|c c' cs cs' Hc _ IH]; intros reg reg' Hreg; [reflexivity|].
  cbn [first_collision].
  pose proof (find_collide_descs reg reg' c c' Hreg Hc) as Hf.
  destruct (List.find _ reg) as [x|], (List.find _ reg') as [x'|];
    try reflexivity;
    try (exfalso; destruct Hf as [Hf1 Hf2];
         first [discriminate (Hf1 eq_refl) | discriminate (Hf2 eq_refl)]).
  assert (Hreg' : Forall2 same_descs (reg ++ [c]) (reg' ++ [c'])).
  { apply Forall2_app; [exact Hreg|]. constructor; [exact Hc | constructor]. }
  specialize (IH _ _ Hreg').
  destruct (first_collision (reg ++ [c]) cs) as [[[n a] b]|],
           (first_collision (reg' ++ [c']) cs') as [[[n' a'] b']|];
    cbn in IH |- *; congruence.
Qed.

Lemma collectors_same_descs w1 w2 c1 c2 :
  descriptors w1 = descriptors w2 ->
  Forall2 same_descs (collectors w1 c1) (collectors w2 c2).
Proof.
  intros Hd. unfold collectors, same_descs.
  repeat constructor; cbn; rewrite Hd; reflexivity.
Qed.

Lemma kinds_take w c n :
  map kind (take n (collectors w c)) = take n all_kinds.
Proof. rewrite <- List.firstn_map. reflexivity. Qed.

(** X9. The value of the token has no influence on what is logged, on
    the exit status, or on which collectors get registered: two runs that
    differ only in the (non-empty) token go-arg finds agree on all
    three. *)
Theorem token_value_does_not_show :
  forall (w : World) (o : Overrides) (tok1 tok2 : string),
    tok1 <> EmptyString -> tok2 <> EmptyString ->
    let w1 := with_arguments (ArgsParsed (override_token tok1 o)) w in
    let w2 := with_arguments (ArgsParsed (override_token tok2 o)) w in
    log_lines (trace (snd (run w1))) = log_lines (trace (snd (run w2))) /\
    exit_code (fst (run w1)) = exit_code (fst (run w2)) /\
    map kind (registry (snd (run w1))) = map kind (registry (snd (run w2))).
Proof.
  intros w o tok1 tok2 H1 H2 w1 w2.
  rewrite (run_unfold w1), (run_unfold w2). unfold run_spec.
  subst w1 w2. cbn [arguments with_arguments].
  set (w1 := with_arguments (ArgsParsed (override_token tok1 o)) w).
  set (w2 := with_arguments (ArgsParsed (override_token tok2 o)) w).
  set (c1 := apply_overrides (override_token tok1 o) defaults).
  set (c2 := apply_overrides (override_token tok2 o) defaults).
  change (DigitalOceanToken c1) with tok1.
  change (DigitalOceanToken c2) with tok2.
  apply String.eqb_neq in H1, H2. rewrite H1, H2.
  pose proof (first_collision_descs _ _
                (collectors_same_descs w1 w2 c1 c2 eq_refl) [] []
                ltac:(constructor)) as Hidx.
  destruct (first_collision [] (collectors w1 c1)) as [[[n a] b]|],
           (first_collision [] (collectors w2 c2)) as [[[n' a'] b']|];
    cbn in Hidx; try discriminate.
  - injection Hidx as <-.
    cbn [fst snd refused trace registry app exit_code].
    split; [|split; [reflexivity|]].
    + log_lines_simpl. reflexivity.
    + rewrite !kinds_take. reflexivity.
  - unfold serve_spec.
    change (WebPath c2) with (WebPath c1).
    change (WebAddr c2) with (WebAddr c1).
    change (listen w2) with (listen w1).
    destruct (String.eqb (WebPath c1) EmptyString);
      [|destruct (String.eqb (WebPath c1) "/");
        [|destruct (listen w1 (WebAddr c1)) as [|[e|]]]];
      cbn [fst snd registered trace registry app exit_code];
      (split; [log_lines_simpl; reflexivity | split; reflexivity]).
Qed.

Lemma token_value_does_not_show_witness :
  log_lines
    (trace (snd (run (with_arguments
                        (ArgsParsed (override_token "dop_v1_0123" no_overrides))
                        world_no_token))))
  = log_lines
      (trace (snd (run (with_arguments
                          (ArgsParsed (override_token "dop_v1_4567" no_overrides))
                          world_no_token)))).
Proof.
  refine (proj1 (token_value_does_not_show world_no_token no_overrides
                   "dop_v1_0123" "dop_v1_4567" _ _)); discriminate.
Defined.

(** ** Routing of the scrape path *)







Lemma hosts_of_rooted c :
  HasPrefix (WebPath c) "/" = true -> http.hosts (mux_of c) = false.
Proof. intros H. unfold mux_of. cbn [http.hosts]. rewrite H. reflexivity. Qed.

(** X10. On a serving exporter whose scrape path is in canonical form, a
    request for exactly the scrape path is dispatched to the metrics
    handler, whatever its host. *)
Theorem scrape_path_reaches_metrics_handler :
  forall (w : World) (c : Config) (addr : string) (r : http.Request),
    configured w = Some c ->
    In (EvListenAndServe addr) (trace (snd (run w))) ->
    http.cleanPath (WebPath c) = WebPath c ->
    http.Path r = WebPath c ->
    http.Handler_ (mux (snd (run w))) r = (http.PromHandler, WebPath c).
Proof.
  intros w c addr r Hc Hin Hcanon Hp.
  destruct (serving_mux w c addr Hc Hin) as (-> & Hne & Hnr).
  assert (Hroot : HasPrefix (WebPath c) "/" = true).
  { rewrite <- Hcanon. apply cleanPath_rooted. }
  unfold http.Handler_. rewrite Hp, Hcanon.
  assert (Hsr : http.shouldRedirect (mux_of c) (http.Host r) (WebPath c)
                = false).
  { unfold http.shouldRedirect. cbn [existsb]. rewrite !mux_lookup.
    apply String.eqb_neq in Hnr. rewrite Hnr, String.eqb_refl.
    rewrite bool_decide_eq_true_2 by eauto. reflexivity. }
  rewrite Hsr, String.eqb_refl. cbn [negb].
  unfold http.handler, http.match_.
  rewrite (hosts_of_rooted c Hroot), mux_lookup.
  apply String.eqb_neq in Hnr. rewrite Hnr, String.eqb_refl. reflexivity.
Qed.

Lemma scrape_path_reaches_metrics_handler_witness :
  http.Handler_ (mux (snd (run world_serving)))
    {| http.Host := "localhost"; http.Path := "/metrics" |}
  = (http.PromHandler, "/metrics").
Proof.
  assert (Hin : In (EvListenAndServe ":9212")
                  (trace (snd (run world_serving)))).
  { rewrite run_unfold. cbn. do 16 right. left. reflexivity. }
  exact (scrape_path_reaches_metrics_handler world_serving _ ":9212"
           {| http.Host := "localhost"; http.Path := "/metrics" |}
           eq_refl Hin eq_refl eq_refl).
Defined.









